(** * kpod create: command-line validation (cmd/kpod/create_cli.go)

    A shallow embedding of the two validators of [create_cli.go]:
    - [parseVolumes] with [validateVolumeHostDir], [validateVolumeCtrDir]
      and [validateVolumeOpts];
    - [verifyContainerResources], the resource-limit cascade.

    Go values are modelled as follows.  Integers are [Z] (the code only
    compares them, it never does arithmetic on the limits), strings are
    [string] (sequences of bytes), slices are [list].  A function that
    returns [error] returns a value of a result type here, and a run-time
    panic is a result of its own. *)

From Stdlib Require Import ZArith List String Ascii Bool Lia.
Import ListNotations.
Local Open Scope Z_scope.
Local Open Scope string_scope.

(** ** Part of the Go [strings] package used by the validators *)

Module strings.

(** [cut sep s]: the text before and after the first occurrence of [sep]
    in [s] ([strings.Index] followed by the two slicings of [genSplit]). *)
Fixpoint cut (sep s : string) : option (string * string) :=
  if String.prefix sep s
  then Some (EmptyString, substring (String.length sep)
                                    (String.length s - String.length sep) s)
  else match s with
       | EmptyString => None
       | String c s' =>
           match cut sep s' with
           | Some (a, b) => Some (String c a, b)
           | None => None
           end
       end.

(** The loop of [genSplit]: at most [k] cuts, the rest is the last item. *)
Fixpoint splitCuts (k : nat) (sep s : string) : list string :=
  match k with
  | O => [s]
  | S k' =>
      match cut sep s with
      | None => [s]
      | Some (a, b) => a :: splitCuts k' sep b
      end
  end.

(** [explode]: the empty separator splits after every byte (the model is
    bytewise; the validators only ever pass a one-byte separator). *)
Fixpoint explode (k : nat) (s : string) : list string :=
  match s with
  | EmptyString => []
  | String c s' =>
      match k with
      | O => [s]
      | S k' => String c EmptyString :: explode k' s'
      end
  end.

(** [strings.SplitN(s, sep, n)]: [n = 0] gives nil, [n < 0] all the
    substrings, [n > 0] at most [n] of them. *)
Definition SplitN (s sep : string) (n : Z) : list string :=
  if (n =? 0)%Z then []
  else
    let cuts := if (n <? 0)%Z then String.length s else Z.to_nat (n - 1) in
    if String.eqb sep EmptyString then explode cuts s
    else splitCuts cuts sep s.

(** [strings.Split(s, sep)] is [SplitN(s, sep, -1)]. *)
Definition Split (s sep : string) : list string := SplitN s sep (-1).

End strings.

(** ** Volumes *)

Module Volumes.

(** The errors of the volume validators, one constructor per message. *)
Inductive error : Type :=
| IncorrectVolumeFormat (volume : string)
    (* "incorrect volume format %q, should be host-dir:ctr-dir:[option]" *)
| ErrorCheckingPath (cause hostDir : string)
    (* "error checking path %q", wrapping the error of os.Stat *)
| InvalidContainerDirectory (ctrDir : string)
    (* "invalid container directory path %q" *)
| OnlyOneRWRO (option : string)
    (* "invalid options %q, can only specify 1 'rw' or 'ro' option" *)
| OnlyOneLabelChange (option : string)
    (* "invalid options %q, can only specify 1 'z' or 'Z' option" *)
| OnlyOneRootPropagation (option : string)
    (* "invalid options %q, can only specify 1 '[r]shared', '[r]private'
       or '[r]slave' option" *)
| InvalidOptionType (option : string)
    (* "invalid option type %q" *).

(** What a call does: it returns [nil], returns an error, or panics
    (Go's run-time error "index out of range"). *)
Inductive result : Type :=
| Nil
| Error (e : error)
| PanicIndexOutOfRange (index length : Z).

Definition isError (r : result) : bool :=
  match r with Error _ => true | _ => false end.

Definition isPanic (r : result) : bool :=
  match r with PanicIndexOutOfRange _ _ => true | _ => false end.

(** The three groups of options of which a volume may name one each. *)
Definition groups : list (list string) :=
  [ ["rw"; "ro"];
    ["z"; "Z"];
    ["private"; "rprivate"; "shared"; "rshared"; "slave"; "rslave"] ].

(** [ctrDir[0] != '/'] reads byte 0 of the string; Go panics when the
    string has no byte 0. *)
Definition validateVolumeCtrDir (ctrDir : string) : result :=
  match String.get 0 ctrDir with
  | None => PanicIndexOutOfRange 0 (Z.of_nat (String.length ctrDir))
  | Some c0 =>
      if negb (Ascii.eqb c0 "/"%char)
      then Error (InvalidContainerDirectory ctrDir)
      else Nil
  end.

(** The [for _, opt := range options] loop of [validateVolumeOpts], with
    its three counters. *)
Fixpoint validateVolumeOpts_loop (option : string) (options : list string)
    (foundRootPropagation foundRWRO foundLabelChange : Z) : result :=
  match options with
  | [] => Nil
  | opt :: rest =>
      if (opt =? "rw") || (opt =? "ro") then
        if (foundRWRO >? 1)%Z then Error (OnlyOneRWRO option)
        else validateVolumeOpts_loop option rest
               foundRootPropagation (foundRWRO + 1) foundLabelChange
      else if (opt =? "z") || (opt =? "Z") then
        if (foundLabelChange >? 1)%Z then Error (OnlyOneLabelChange option)
        else validateVolumeOpts_loop option rest
               foundRootPropagation foundRWRO (foundLabelChange + 1)
      else if (opt =? "private") || (opt =? "rprivate") || (opt =? "shared")
              || (opt =? "rshared") || (opt =? "slave") || (opt =? "rslave")
      then
        if (foundRootPropagation >? 1)%Z
        then Error (OnlyOneRootPropagation option)
        else validateVolumeOpts_loop option rest
               (foundRootPropagation + 1) foundRWRO foundLabelChange
      else Error (InvalidOptionType option)
  end.

Definition validateVolumeOpts (option : string) : result :=
  validateVolumeOpts_loop option (strings.Split option ",") 0 0 0.

Section WithFilesystem.

(** [os.Stat], of which the code only looks at the error: [None] when
    the path can be examined, [Some cause] otherwise. *)
Variable os_Stat : string -> option string.

Definition validateVolumeHostDir (hostDir : string) : result :=
  match os_Stat hostDir with
  | Some cause => Error (ErrorCheckingPath cause hostDir)
  | None => Nil
  end.

(** One turn of the loop of [parseVolumes]; [Nil] means the loop goes
    on with the next volume. *)
Definition parseVolume (volume : string) : result :=
  let arr := strings.SplitN volume ":" 3 in
  if (Z.of_nat (List.length arr) <? 2)%Z then
    Error (IncorrectVolumeFormat volume)
  else
    match validateVolumeHostDir (nth 0 arr "") with
    | Nil =>
        match validateVolumeCtrDir (nth 1 arr "") with
        | Nil =>
            if (Z.of_nat (List.length arr) >? 2)%Z
            then validateVolumeOpts (nth 2 arr "")
            else Nil
        | err => err
        end
    | err => err
    end.

Fixpoint parseVolumes (volumes : list string) : result :=
  match volumes with
  | [] => Nil
  | volume :: rest =>
      match parseVolume volume with
      | Nil => parseVolumes rest
      | err => err
      end
  end.

End WithFilesystem.

End Volumes.

(** ** Resource limits *)

Module Resources.

Local Open Scope Z_scope.
Local Open Scope list_scope.

(** It's not kernel limit, we want this 4M limit to supply a reasonable
    functional container *)
Definition linuxMinMemory : Z := 4194304.

(** Modelled from the spec: the declaration of [createConfig] and of its
    [resources] field is not among the sources.  The record has the
    fields that [verifyContainerResources] reads and writes, with the
    types of the spec's ResourceLimits: integers, booleans, strings and
    sequences of strings. *)
Record createResourceConfig : Type := mkResources {
    blkioWeight : Z;
    blkioWeightDevice : list string;
    cpuPeriod : Z;
    cpuQuota : Z;
    cpuShares : Z;
    cpusetCpus : string;
    cpusetMems : string;
    deviceReadBps : list string;
    deviceReadIOps : list string;
    deviceWriteBps : list string;
    deviceWriteIOps : list string;
    disableOomKiller : bool;
    kernelMemory : Z;
    memory : Z;
    memoryReservation : Z;
    memorySwap : Z;
    memorySwappiness : Z;
    pidsLimit : Z
}.

Record createConfig : Type := mkConfig { resources : createResourceConfig }.

(** Assignment to one field, [config.resources.f = v]. *)
Definition set_blkioWeight (v : Z) (r : createResourceConfig) :=
  let '(mkResources x0 x1 x2 x3 x4 x5 x6 x7 x8 x9 x10 x11 x12 x13 x14 x15 x16 x17) := r in
  mkResources v x1 x2 x3 x4 x5 x6 x7 x8 x9 x10 x11 x12 x13 x14 x15 x16 x17.
Definition set_blkioWeightDevice (v : list string) (r : createResourceConfig) :=
  let '(mkResources x0 x1 x2 x3 x4 x5 x6 x7 x8 x9 x10 x11 x12 x13 x14 x15 x16 x17) := r in
  mkResources x0 v x2 x3 x4 x5 x6 x7 x8 x9 x10 x11 x12 x13 x14 x15 x16 x17.
Definition set_cpuPeriod (v : Z) (r : createResourceConfig) :=
  let '(mkResources x0 x1 x2 x3 x4 x5 x6 x7 x8 x9 x10 x11 x12 x13 x14 x15 x16 x17) := r in
  mkResources x0 x1 v x3 x4 x5 x6 x7 x8 x9 x10 x11 x12 x13 x14 x15 x16 x17.
Definition set_cpuQuota (v : Z) (r : createResourceConfig) :=
  let '(mkResources x0 x1 x2 x3 x4 x5 x6 x7 x8 x9 x10 x11 x12 x13 x14 x15 x16 x17) := r in
  mkResources x0 x1 x2 v x4 x5 x6 x7 x8 x9 x10 x11 x12 x13 x14 x15 x16 x17.
Definition set_cpuShares (v : Z) (r : createResourceConfig) :=
  let '(mkResources x0 x1 x2 x3 x4 x5 x6 x7 x8 x9 x10 x11 x12 x13 x14 x15 x16 x17) := r in
  mkResources x0 x1 x2 x3 v x5 x6 x7 x8 x9 x10 x11 x12 x13 x14 x15 x16 x17.
Definition set_cpusetCpus (v : string) (r : createResourceConfig) :=
  let '(mkResources x0 x1 x2 x3 x4 x5 x6 x7 x8 x9 x10 x11 x12 x13 x14 x15 x16 x17) := r in
  mkResources x0 x1 x2 x3 x4 v x6 x7 x8 x9 x10 x11 x12 x13 x14 x15 x16 x17.
Definition set_cpusetMems (v : string) (r : createResourceConfig) :=
  let '(mkResources x0 x1 x2 x3 x4 x5 x6 x7 x8 x9 x10 x11 x12 x13 x14 x15 x16 x17) := r in
  mkResources x0 x1 x2 x3 x4 x5 v x7 x8 x9 x10 x11 x12 x13 x14 x15 x16 x17.
Definition set_deviceReadBps (v : list string) (r : createResourceConfig) :=
  let '(mkResources x0 x1 x2 x3 x4 x5 x6 x7 x8 x9 x10 x11 x12 x13 x14 x15 x16 x17) := r in
  mkResources x0 x1 x2 x3 x4 x5 x6 v x8 x9 x10 x11 x12 x13 x14 x15 x16 x17.
Definition set_deviceReadIOps (v : list string) (r : createResourceConfig) :=
  let '(mkResources x0 x1 x2 x3 x4 x5 x6 x7 x8 x9 x10 x11 x12 x13 x14 x15 x16 x17) := r in
  mkResources x0 x1 x2 x3 x4 x5 x6 x7 v x9 x10 x11 x12 x13 x14 x15 x16 x17.
Definition set_deviceWriteBps (v : list string) (r : createResourceConfig) :=
  let '(mkResources x0 x1 x2 x3 x4 x5 x6 x7 x8 x9 x10 x11 x12 x13 x14 x15 x16 x17) := r in
  mkResources x0 x1 x2 x3 x4 x5 x6 x7 x8 v x10 x11 x12 x13 x14 x15 x16 x17.
Definition set_deviceWriteIOps (v : list string) (r : createResourceConfig) :=
  let '(mkResources x0 x1 x2 x3 x4 x5 x6 x7 x8 x9 x10 x11 x12 x13 x14 x15 x16 x17) := r in
  mkResources x0 x1 x2 x3 x4 x5 x6 x7 x8 x9 v x11 x12 x13 x14 x15 x16 x17.
Definition set_disableOomKiller (v : bool) (r : createResourceConfig) :=
  let '(mkResources x0 x1 x2 x3 x4 x5 x6 x7 x8 x9 x10 x11 x12 x13 x14 x15 x16 x17) := r in
  mkResources x0 x1 x2 x3 x4 x5 x6 x7 x8 x9 x10 v x12 x13 x14 x15 x16 x17.
Definition set_kernelMemory (v : Z) (r : createResourceConfig) :=
  let '(mkResources x0 x1 x2 x3 x4 x5 x6 x7 x8 x9 x10 x11 x12 x13 x14 x15 x16 x17) := r in
  mkResources x0 x1 x2 x3 x4 x5 x6 x7 x8 x9 x10 x11 v x13 x14 x15 x16 x17.
Definition set_memory (v : Z) (r : createResourceConfig) :=
  let '(mkResources x0 x1 x2 x3 x4 x5 x6 x7 x8 x9 x10 x11 x12 x13 x14 x15 x16 x17) := r in
  mkResources x0 x1 x2 x3 x4 x5 x6 x7 x8 x9 x10 x11 x12 v x14 x15 x16 x17.
Definition set_memoryReservation (v : Z) (r : createResourceConfig) :=
  let '(mkResources x0 x1 x2 x3 x4 x5 x6 x7 x8 x9 x10 x11 x12 x13 x14 x15 x16 x17) := r in
  mkResources x0 x1 x2 x3 x4 x5 x6 x7 x8 x9 x10 x11 x12 x13 v x15 x16 x17.
Definition set_memorySwap (v : Z) (r : createResourceConfig) :=
  let '(mkResources x0 x1 x2 x3 x4 x5 x6 x7 x8 x9 x10 x11 x12 x13 x14 x15 x16 x17) := r in
  mkResources x0 x1 x2 x3 x4 x5 x6 x7 x8 x9 x10 x11 x12 x13 x14 v x16 x17.
Definition set_memorySwappiness (v : Z) (r : createResourceConfig) :=
  let '(mkResources x0 x1 x2 x3 x4 x5 x6 x7 x8 x9 x10 x11 x12 x13 x14 x15 x16 x17) := r in
  mkResources x0 x1 x2 x3 x4 x5 x6 x7 x8 x9 x10 x11 x12 x13 x14 x15 v x17.
Definition set_pidsLimit (v : Z) (r : createResourceConfig) :=
  let '(mkResources x0 x1 x2 x3 x4 x5 x6 x7 x8 x9 x10 x11 x12 x13 x14 x15 x16 x17) := r in
  mkResources x0 x1 x2 x3 x4 x5 x6 x7 x8 x9 x10 x11 x12 x13 x14 x15 x16 v.

(** [sysinfo.SysInfo] of the docker package, as far as the function reads
    it: the capability flags, the two lists of available CPUs and memory
    nodes, and the two availability queries, which return a boolean and
    an error ([None] is Go's nil error). *)
Record SysInfo : Type := mkSysInfo {
    MemoryLimit : bool;
    SwapLimit : bool;
    MemoryReservation : bool;
    OomKillDisable : bool;
    MemorySwappiness : bool;
    KernelMemory : bool;
    PidsLimit : bool;
    CPUShares : bool;
    CPUCfsPeriod : bool;
    CPUCfsQuota : bool;
    Cpuset : bool;
    Cpus : string;
    Mems : string;
    BlkioWeight : bool;
    BlkioWeightDevice : bool;
    BlkioReadBpsDevice : bool;
    BlkioWriteBpsDevice : bool;
    BlkioReadIOpsDevice : bool;
    BlkioWriteIOpsDevice : bool;
    IsCpusetCpusAvailable : string -> bool * option string;
    IsCpusetMemsAvailable : string -> bool * option string
}.

(** The errors of [verifyContainerResources], one constructor per
    [fmt.Errorf], with the values the message prints. *)
Inductive error : Type :=
| MinimumMemory
    (* "minimum memory limit allowed is 4MB" *)
| SwapLessThanMemory
    (* "minimum memoryswap limit should be larger than memory limit, see
       usage" *)
| SwapWithoutMemory
    (* "you should always set the Memory limit when using Memoryswap
       limit, see usage" *)
| InvalidSwappiness (swappiness : Z)
    (* "invalid value: %v, valid memory swappiness range is 0-100" *)
| MinimumMemoryReservation
    (* "minimum memory reservation allowed is 4MB" *)
| MemoryLessThanReservation
    (* "minimum memory limit can not be less than memory reservation
       limit, see usage" *)
| MinimumKernelMemory
    (* "minimum kernel memory limit allowed is 4MB" *)
| CpuPeriodRange
    (* "CPU cfs period can not be less than 1ms (i.e. 1000) or larger
       than 1s (i.e. 1000000)" *)
| CpuQuotaMinimum
    (* "CPU cfs quota can not be less than 1ms (i.e. 1000)" *)
| InvalidCpusetCpus (cpusetCpus : string)
    (* "invalid value %s for cpuset cpus" *)
| CpusNotAvailable (cpusetCpus available : string)
    (* "requested CPUs are not available - requested %s, available: %s" *)
| InvalidCpusetMems (cpusetMems : string)
    (* "invalid value %s for cpuset mems" *)
| MemsNotAvailable (cpusetMems available : string)
    (* "requested memory nodes are not available - requested %s,
       available: %s" *)
| BlkioWeightRange
    (* "range of blkio weight is from 10 to 1000" *).

(** The warning messages. *)
Definition warnMemoryLimit : string :=
  "Your kernel does not support memory limit capabilities or the cgroup is not mounted. Limitation discarded.".
Definition warnSwapLimit : string :=
  "Your kernel does not support swap limit capabilities,or the cgroup is not mounted. Memory limited without swap.".
Definition warnMemorySwappiness : string :=
  "Your kernel does not support memory swappiness capabilities, or the cgroup is not mounted. Memory swappiness discarded.".
Definition warnMemoryReservation : string :=
  "Your kernel does not support memory soft limit capabilities or the cgroup is not mounted. Limitation discarded.".
Definition warnKernelMemory : string :=
  "Your kernel does not support kernel memory limit capabilities or the cgroup is not mounted. Limitation discarded.".
Definition warnOomKillDisable : string :=
  "Your kernel does not support OomKillDisable. OomKillDisable discarded.".
Definition warnPidsLimit : string :=
  "Your kernel does not support pids limit capabilities or the cgroup is not mounted. PIDs limit discarded.".
Definition warnCPUShares : string :=
  "Your kernel does not support CPU shares or the cgroup is not mounted. Shares discarded.".
Definition warnCPUCfsPeriod : string :=
  "Your kernel does not support CPU cfs period or the cgroup is not mounted. Period discarded.".
Definition warnCPUCfsQuota : string :=
  "Your kernel does not support CPU cfs quota or the cgroup is not mounted. Quota discarded.".
Definition warnCpuset : string :=
  "Your kernel does not support cpuset or the cgroup is not mounted. Cpuset discarded.".
Definition warnBlkioWeight : string :=
  "Your kernel does not support Block I/O weight or the cgroup is not mounted. Weight discarded.".
Definition warnBlkioWeightDevice : string :=
  "Your kernel does not support Block I/O weight_device or the cgroup is not mounted. Weight-device discarded.".
Definition warnBlkioReadBpsDevice : string :=
  "Your kernel does not support BPS Block I/O read limit or the cgroup is not mounted. Block I/O BPS read limit discarded".
Definition warnBlkioWriteBpsDevice : string :=
  "Your kernel does not support BPS Block I/O write limit or the cgroup is not mounted. Block I/O BPS write limit discarded.".
Definition warnBlkioReadIOpsDevice : string :=
  "Your kernel does not support IOPS Block read limit or the cgroup is not mounted. Block I/O IOPS read limit discarded.".
Definition warnBlkioWriteIOpsDevice : string :=
  "Your kernel does not support IOPS Block I/O write limit or the cgroup is not mounted. Block I/O IOPS write limit discarded.".

(** [addWarning]: the message is logged (not modelled) and appended. *)
Definition addWarning (warnings : list string) (msg : string) : list string :=
  warnings ++ [msg].

(** *** Statements

    The function works on two pieces of state: the [config] it received
    by pointer and its local [warnings].  A statement either falls
    through to the next one or returns from the function with an error;
    in both cases the state it leaves is the one the caller sees. *)
Record state : Type := mkState {
    config : createConfig;
    warnings : list string
}.

Inductive outcome : Type :=
| Next (s : state)
| Return (s : state) (err : error).

Definition stmt : Type := state -> outcome.

Definition seq (a b : stmt) : stmt :=
  fun s => match a s with
           | Next s' => b s'
           | Return s' err => Return s' err
           end.

Definition skip : stmt := fun s => Next s.

(** [if cond { body }], the condition reading [config.resources]. *)
Definition If (cond : createResourceConfig -> bool) (body : stmt) : stmt :=
  fun s => if cond (resources (config s)) then body s else Next s.

(** [if cond { body } else { other }]. *)
Definition IfElse (cond : createResourceConfig -> bool) (body other : stmt)
  : stmt :=
  fun s => if cond (resources (config s)) then body s else other s.

(** [return warnings, fmt.Errorf(...)]. *)
Definition ReturnErr (err : createResourceConfig -> error) : stmt :=
  fun s => Return s (err (resources (config s))).

(** [warnings = addWarning(warnings, msg)]. *)
Definition Warn (msg : string) : stmt :=
  fun s => Next (mkState (config s) (addWarning (warnings s) msg)).

(** [config.resources.f = v], for the setter of [f]. *)
Definition Assign (set : createResourceConfig -> createResourceConfig) : stmt :=
  fun s => Next (mkState (mkConfig (set (resources (config s)))) (warnings s)).

(** [avail, err := query(arg)] followed by the two tests on [err] and
    [avail], each of which returns. *)
Definition Available (query : string -> bool * option string)
    (arg : createResourceConfig -> string)
    (invalid notAvailable : createResourceConfig -> error) : stmt :=
  fun s =>
    let '(available, err) := query (arg (resources (config s))) in
    match err with
    | Some _ => Return s (invalid (resources (config s)))
    | None =>
        if negb available
        then Return s (notAvailable (resources (config s)))
        else Next s
    end.

(** A block runs its statements in order, until one returns. *)
Fixpoint block (stmts : list stmt) : stmt :=
  match stmts with
  | [] => skip
  | c :: rest => seq c (block rest)
  end.

Declare Scope stmt_scope.
Delimit Scope stmt_scope with stmt.
Bind Scope stmt_scope with stmt.
Notation "a ;; b" := (seq a b) (at level 61, right associativity) : stmt_scope.
Notation "x != y" := (negb (Z.eqb x y)) (at level 70, no associativity) : Z_scope.

Section Body.

(** [sysInfo := sysinfo.New(true)] reads the host; the report is a
    parameter here. *)
Variable sysInfo : SysInfo.
Variable update : bool.

(** The body of [verifyContainerResources] after its two declarations,
    statement by statement. *)
Definition body : list stmt := [
  (* memory subsystem checks and adjustments *)
  If (fun r => (memory r != 0) && (memory r <? linuxMinMemory))
    (ReturnErr (fun _ => MinimumMemory));
  If (fun r => (memory r >? 0) && negb (MemoryLimit sysInfo))
    (Warn warnMemoryLimit ;;
     Assign (set_memory 0) ;;
     Assign (set_memorySwap (-1)));
  If (fun r => (memory r >? 0) && (memorySwap r != -1)
               && negb (SwapLimit sysInfo))
    (Warn warnSwapLimit ;;
     Assign (set_memorySwap (-1)));
  If (fun r => (memory r >? 0) && (memorySwap r >? 0)
               && (memorySwap r <? memory r))
    (ReturnErr (fun _ => SwapLessThanMemory));
  If (fun r => (memory r =? 0) && (memorySwap r >? 0) && negb update)
    (ReturnErr (fun _ => SwapWithoutMemory));
  If (fun r => memorySwappiness r != -1)
    (IfElse (fun _ => negb (MemorySwappiness sysInfo))
       (Warn warnMemorySwappiness ;;
        Assign (set_memorySwappiness (-1)))
       (If (fun r => let swappiness := memorySwappiness r in
                     (swappiness <? -1) || (swappiness >? 100))
          (ReturnErr (fun r => InvalidSwappiness (memorySwappiness r)))));
  If (fun r => (memoryReservation r >? 0)
               && negb (MemoryReservation sysInfo))
    (Warn warnMemoryReservation ;;
     Assign (set_memoryReservation 0));
  If (fun r => (memoryReservation r >? 0)
               && (memoryReservation r <? linuxMinMemory))
    (ReturnErr (fun _ => MinimumMemoryReservation));
  If (fun r => (memory r >? 0) && (memoryReservation r >? 0)
               && (memory r <? memoryReservation r))
    (ReturnErr (fun _ => MemoryLessThanReservation));
  If (fun r => (kernelMemory r >? 0) && negb (KernelMemory sysInfo))
    (Warn warnKernelMemory ;;
     Assign (set_kernelMemory 0));
  If (fun r => (kernelMemory r >? 0) && (kernelMemory r <? linuxMinMemory))
    (ReturnErr (fun _ => MinimumKernelMemory));
  If (fun r => Bool.eqb (disableOomKiller r) true
               && negb (OomKillDisable sysInfo))
    (Warn warnOomKillDisable ;;
     Assign (set_disableOomKiller false));

  If (fun r => (pidsLimit r != 0) && negb (PidsLimit sysInfo))
    (Warn warnPidsLimit ;;
     Assign (set_pidsLimit 0));

  If (fun r => (cpuShares r >? 0) && negb (CPUShares sysInfo))
    (Warn warnCPUShares ;;
     Assign (set_cpuShares 0));
  If (fun r => (cpuPeriod r >? 0) && negb (CPUCfsPeriod sysInfo))
    (Warn warnCPUCfsPeriod ;;
     Assign (set_cpuPeriod 0));
  If (fun r => (cpuPeriod r != 0)
               && ((cpuPeriod r <? 1000) || (cpuPeriod r >? 1000000)))
    (ReturnErr (fun _ => CpuPeriodRange));
  If (fun r => (cpuQuota r >? 0) && negb (CPUCfsQuota sysInfo))
    (Warn warnCPUCfsQuota ;;
     Assign (set_cpuQuota 0));
  If (fun r => (cpuQuota r >? 0) && (cpuQuota r <? 1000))
    (ReturnErr (fun _ => CpuQuotaMinimum));
  (* cpuset subsystem checks and adjustments *)
  If (fun r => (negb (String.eqb (cpusetCpus r) "")
                || negb (String.eqb (cpusetMems r) ""))
               && negb (Cpuset sysInfo))
    (Warn warnCpuset ;;
     Assign (set_cpusetCpus "") ;;
     Assign (set_cpusetMems ""));
  Available (IsCpusetCpusAvailable sysInfo) cpusetCpus
    (fun r => InvalidCpusetCpus (cpusetCpus r))
    (fun r => CpusNotAvailable (cpusetCpus r) (Cpus sysInfo));
  Available (IsCpusetMemsAvailable sysInfo) cpusetMems
    (fun r => InvalidCpusetMems (cpusetMems r))
    (fun r => MemsNotAvailable (cpusetMems r) (Mems sysInfo));

  (* blkio subsystem checks and adjustments *)
  If (fun r => (blkioWeight r >? 0) && negb (BlkioWeight sysInfo))
    (Warn warnBlkioWeight ;;
     Assign (set_blkioWeight 0));
  If (fun r => (blkioWeight r >? 0)
               && ((blkioWeight r <? 10) || (blkioWeight r >? 1000)))
    (ReturnErr (fun _ => BlkioWeightRange));
  If (fun r => (Z.of_nat (List.length (blkioWeightDevice r)) >? 0)
               && negb (BlkioWeightDevice sysInfo))
    (Warn warnBlkioWeightDevice ;;
     Assign (set_blkioWeightDevice []));
  If (fun r => (Z.of_nat (List.length (deviceReadBps r)) >? 0)
               && negb (BlkioReadBpsDevice sysInfo))
    (Warn warnBlkioReadBpsDevice ;;
     Assign (set_deviceReadBps []));
  If (fun r => (Z.of_nat (List.length (deviceWriteBps r)) >? 0)
               && negb (BlkioWriteBpsDevice sysInfo))
    (Warn warnBlkioWriteBpsDevice ;;
     Assign (set_deviceWriteBps []));
  If (fun r => (Z.of_nat (List.length (deviceReadIOps r)) >? 0)
               && negb (BlkioReadIOpsDevice sysInfo))
    (Warn warnBlkioReadIOpsDevice ;;
     Assign (set_deviceReadIOps []));
  If (fun r => (Z.of_nat (List.length (deviceWriteIOps r)) >? 0)
               && negb (BlkioWriteIOpsDevice sysInfo))
    (Warn warnBlkioWriteIOpsDevice ;;
     Assign (set_deviceWriteIOps []))
]%stmt.

(** What the caller gets: the configuration as the call leaves it
    (it was passed by pointer), the warnings and the error ([None] is
    nil). *)
Definition returned (o : outcome)
  : createConfig * list string * option error :=
  match o with
  | Next s => (config s, warnings s, None)
  | Return s err => (config s, warnings s, Some err)
  end.

(** [verifyContainerResources(config, update)], with [warnings]
    initially empty. *)
Definition verifyContainerResources (config0 : createConfig)
  : createConfig * list string * option error :=
  returned (block body (mkState config0 [])).

End Body.

(** The errors of the memory subsystem checks, which come before the
    OOM-killer check. *)
Definition isMemoryError (err : option error) : bool :=
  match err with
  | Some MinimumMemory | Some SwapLessThanMemory | Some SwapWithoutMemory
  | Some (InvalidSwappiness _) | Some MinimumMemoryReservation
  | Some MemoryLessThanReservation | Some MinimumKernelMemory => true
  | _ => false
  end.

(** *** Sample requests and capability reports *)

(** Every limit unset. *)
Definition unset : createResourceConfig :=
  {| blkioWeight := 0; blkioWeightDevice := []; cpuPeriod := 0;
     cpuQuota := 0; cpuShares := 0; cpusetCpus := ""; cpusetMems := "";
     deviceReadBps := []; deviceReadIOps := []; deviceWriteBps := [];
     deviceWriteIOps := []; disableOomKiller := false; kernelMemory := 0;
     memory := 0; memoryReservation := 0; memorySwap := 0;
     memorySwappiness := -1; pidsLimit := 0 |}.

(** A host that supports everything (or, with [false], nothing) and on
    which every cpuset that is asked for is available. *)
Definition hostWith (cap : bool) : SysInfo :=
  {| MemoryLimit := cap; SwapLimit := cap; MemoryReservation := cap;
     OomKillDisable := cap; MemorySwappiness := cap; KernelMemory := cap;
     PidsLimit := cap; CPUShares := cap; CPUCfsPeriod := cap;
     CPUCfsQuota := cap; Cpuset := cap; Cpus := "0-3"; Mems := "0";
     BlkioWeight := cap; BlkioWeightDevice := cap;
     BlkioReadBpsDevice := cap; BlkioWriteBpsDevice := cap;
     BlkioReadIOpsDevice := cap; BlkioWriteIOpsDevice := cap;
     IsCpusetCpusAvailable := fun _ => (true, None);
     IsCpusetMemsAvailable := fun _ => (true, None) |}.

(** A host that supports everything but disabling the OOM killer. *)
Definition hostWithoutOomKillDisable : SysInfo :=
  {| MemoryLimit := true; SwapLimit := true; MemoryReservation := true;
     OomKillDisable := false; MemorySwappiness := true;
     KernelMemory := true; PidsLimit := true; CPUShares := true;
     CPUCfsPeriod := true; CPUCfsQuota := true; Cpuset := true;
     Cpus := "0-3"; Mems := "0"; BlkioWeight := true;
     BlkioWeightDevice := true; BlkioReadBpsDevice := true;
     BlkioWriteBpsDevice := true; BlkioReadIOpsDevice := true;
     BlkioWriteIOpsDevice := true;
     IsCpusetCpusAvailable := fun _ => (true, None);
     IsCpusetMemsAvailable := fun _ => (true, None) |}.

(** *** Vocabulary of the proofs *)

(** A triple with two postconditions: from a state in [P], the statement
    falls through into [Q] or returns into [E]. *)
Definition triple (P : state -> Prop) (c : stmt) (Q : state -> Prop)
    (E : state -> error -> Prop) : Prop :=
  forall s, P s ->
    match c s with
    | Next s' => Q s'
    | Return s' err => E s' err
    end.

(** A statement that returns leaves the state as it found it. *)
Definition returnsUnchanged (c : stmt) : Prop :=
  forall s s' err, c s = Return s' err -> s' = s.

(** A statement only ever appends to the warnings. *)
Definition appendsWarnings (c : stmt) : Prop :=
  forall s, match c s with
            | Next s' | Return s' _ =>
                exists more, warnings s' = warnings s ++ more
            end.

(** A statement has nothing to do on a configuration: it falls through
    without a warning and without an assignment. *)
Definition quiet (c : stmt) (cfg : createConfig) : Prop :=
  forall ws, c (mkState cfg ws) = Next (mkState cfg ws).

(** Once run, a statement has nothing left to do. *)
Definition settles (c : stmt) : Prop :=
  forall s, match c s with
            | Next s' => quiet c (config s')
            | Return _ _ => True
            end.

(** Running [c] does not wake up [d]. *)
Definition keepsQuiet (d c : stmt) : Prop :=
  forall s, quiet d (config s) ->
    match c s with
    | Next s' => quiet d (config s')
    | Return _ _ => True
    end.

(** The state [s] with [cpuPeriod] unset and other warnings. *)
Definition zeroPeriod (s : state) (ws : list string) : state :=
  mkState (mkConfig (set_cpuPeriod 0 (resources (config s)))) ws.

(** With [cpuPeriod] unset, a statement falls through wherever it fell
    through with a period, and leaves the same other fields. *)
Definition followsWithoutPeriod (c : stmt) : Prop :=
  forall s ws,
    match c s with
    | Next s' => exists ws', c (zeroPeriod s ws) = Next (zeroPeriod s' ws')
    | Return _ _ => True
    end.

End Resources.


(** ** Sysctl values *)

Module Sysctl.

(** A Go [map[string]string]: at most one binding per key, in no
    particular order.  [m[k] = v] replaces the binding of [k]. *)
Definition Map : Type := list (string * string).

Definition lookup (k : string) (m : Map) : option string :=
  match find (fun p => String.eqb (fst p) k) m with
  | Some p => Some (snd p)
  | None => None
  end.

Definition insert (k v : string) (m : Map) : Map :=
  (k, v) :: filter (fun p => negb (String.eqb (fst p) k)) m.

(** "%s in an invalid sysctl value" *)
Inductive error : Type :=
| InvalidSysctlValue (inputSysctl : string).

(** The loop of [convertStringSliceToMap], on the map built so far. *)
Fixpoint convertStringSliceToMap_loop (strSlice : list string)
    (delimiter : string) (sysctl : Map) : Map * option error :=
  match strSlice with
  | [] => (sysctl, None)
  | inputSysctl :: rest =>
      let values := strings.Split inputSysctl delimiter in
      if (Z.of_nat (List.length values) <? 2)%Z
      then (sysctl, Some (InvalidSysctlValue inputSysctl))
      else convertStringSliceToMap_loop rest delimiter
             (insert (nth 0 values "") (nth 1 values "") sysctl)
  end.

Definition convertStringSliceToMap (strSlice : list string)
    (delimiter : string) : Map * option error :=
  convertStringSliceToMap_loop strSlice delimiter [].

(** The binding of [k] that the last pair of a list of pairs gives. *)
Fixpoint lastBinding (k : string) (kvs : list (string * string))
  : option string :=
  match kvs with
  | [] => None
  | (k', v) :: rest =>
      match lastBinding k rest with
      | Some v' => Some v'
      | None => if String.eqb k' k then Some v else None
      end
  end.

End Sysctl.

(** ** Vocabulary of the properties *)

Module Vocabulary.

(** [sep] occurs in [s]. *)
Definition occurs (sep s : string) : Prop :=
  exists a b, s = (a ++ sep ++ b)%string.

(** The byte [c] is one of the bytes of [s]. *)
Fixpoint hasByte (c : ascii) (s : string) : bool :=
  match s with
  | EmptyString => false
  | String c' s' => Ascii.eqb c' c || hasByte c s'
  end.

(** The option belongs to the group. *)
Definition inGroup (group : list string) (opt : string) : bool :=
  existsb (String.eqb opt) group.

(** How many options of a list belong to the group. *)
Definition countGroup (group : list string) (options : list string) : Z :=
  Z.of_nat (List.length (filter (inGroup group) options)).

End Vocabulary.

(** ** Vocabulary of the properties of the resource limits *)

Module ResourcesVocabulary.

Import Resources.
Local Open Scope Z_scope.
Local Open Scope list_scope.

(** The host has every capability the function asks about. *)
Definition fullSupport (sysInfo : SysInfo) : bool :=
  MemoryLimit sysInfo && SwapLimit sysInfo && MemoryReservation sysInfo
  && OomKillDisable sysInfo && MemorySwappiness sysInfo
  && KernelMemory sysInfo && PidsLimit sysInfo && CPUShares sysInfo
  && CPUCfsPeriod sysInfo && CPUCfsQuota sysInfo && Cpuset sysInfo
  && BlkioWeight sysInfo && BlkioWeightDevice sysInfo
  && BlkioReadBpsDevice sysInfo && BlkioWriteBpsDevice sysInfo
  && BlkioReadIOpsDevice sysInfo && BlkioWriteIOpsDevice sysInfo.

(** Every field of [r] is the field of [r0] or the value that a downgrade
    assigns to it. *)
Definition downgraded (r0 r : createResourceConfig) : Prop :=
  (blkioWeight r = blkioWeight r0 \/ blkioWeight r = 0)
  /\ (blkioWeightDevice r = blkioWeightDevice r0 \/ blkioWeightDevice r = [])
  /\ (cpuPeriod r = cpuPeriod r0 \/ cpuPeriod r = 0)
  /\ (cpuQuota r = cpuQuota r0 \/ cpuQuota r = 0)
  /\ (cpuShares r = cpuShares r0 \/ cpuShares r = 0)
  /\ (cpusetCpus r = cpusetCpus r0 \/ cpusetCpus r = "")
  /\ (cpusetMems r = cpusetMems r0 \/ cpusetMems r = "")
  /\ (deviceReadBps r = deviceReadBps r0 \/ deviceReadBps r = [])
  /\ (deviceReadIOps r = deviceReadIOps r0 \/ deviceReadIOps r = [])
  /\ (deviceWriteBps r = deviceWriteBps r0 \/ deviceWriteBps r = [])
  /\ (deviceWriteIOps r = deviceWriteIOps r0 \/ deviceWriteIOps r = [])
  /\ (disableOomKiller r = disableOomKiller r0
      \/ disableOomKiller r = false)
  /\ (kernelMemory r = kernelMemory r0 \/ kernelMemory r = 0)
  /\ (memory r = memory r0 \/ memory r = 0)
  /\ (memoryReservation r = memoryReservation r0 \/ memoryReservation r = 0)
  /\ (memorySwap r = memorySwap r0 \/ memorySwap r = -1)
  /\ (memorySwappiness r = memorySwappiness r0 \/ memorySwappiness r = -1)
  /\ (pidsLimit r = pidsLimit r0 \/ pidsLimit r = 0).

(** The warnings, in the order of the statements that give them. *)
Definition allWarnings : list string :=
  [ warnMemoryLimit; warnSwapLimit; warnMemorySwappiness;
    warnMemoryReservation; warnKernelMemory; warnOomKillDisable;
    warnPidsLimit; warnCPUShares; warnCPUCfsPeriod; warnCPUCfsQuota;
    warnCpuset; warnBlkioWeight; warnBlkioWeightDevice;
    warnBlkioReadBpsDevice; warnBlkioWriteBpsDevice;
    warnBlkioReadIOpsDevice; warnBlkioWriteIOpsDevice ].

(** [l1] is [l2] with some elements left out. *)
Inductive Subseq {A : Type} : list A -> list A -> Prop :=
| Subseq_nil : forall l, Subseq [] l
| Subseq_keep : forall x l1 l2, Subseq l1 l2 -> Subseq (x :: l1) (x :: l2)
| Subseq_skip : forall x l1 l2, Subseq l1 l2 -> Subseq l1 (x :: l2).

(** The state a statement leaves, however it ends. *)
Definition stateOf (o : outcome) : state :=
  match o with Next s | Return s _ => s end.

(** All that a statement does to the warnings is to append some of
    [msgs], in their order. *)
Definition warnsOnly (c : stmt) (msgs : list string) : Prop :=
  forall s, exists more,
    Subseq more msgs /\ warnings (stateOf (c s)) = warnings s ++ more.

(** Two statements do the same, unless the first returns the error about
    a swap limit without a memory limit. *)
Definition sameButSwapWithoutMemory (c1 c2 : stmt) : Prop :=
  forall s, c1 s = c2 s \/ exists s', c1 s = Return s' SwapWithoutMemory.

(** The capabilities whose absence would have discarded the limit that an
    error is about. *)
Definition supports (sysInfo : SysInfo) (err : error) : bool :=
  match err with
  | SwapLessThanMemory => MemoryLimit sysInfo && SwapLimit sysInfo
  | InvalidSwappiness _ => MemorySwappiness sysInfo
  | MinimumMemoryReservation => MemoryReservation sysInfo
  | MemoryLessThanReservation =>
      MemoryLimit sysInfo && MemoryReservation sysInfo
  | MinimumKernelMemory => KernelMemory sysInfo
  | CpuPeriodRange => CPUCfsPeriod sysInfo
  | CpuQuotaMinimum => CPUCfsQuota sysInfo
  | BlkioWeightRange => BlkioWeight sysInfo
  | _ => true
  end.

(** What holds once the first [k] statements have run: a limit that is
    still set has survived the check of its capability. *)
Definition checkedSoFar (sysInfo : SysInfo) (k : nat) (s : state) : Prop :=
  let r := resources (config s) in
  ((2 <= k)%nat -> 0 < memory r -> MemoryLimit sysInfo = true)
  /\ ((3 <= k)%nat -> 0 < memory r -> memorySwap r <> -1 ->
      SwapLimit sysInfo = true)
  /\ ((7 <= k)%nat -> 0 < memoryReservation r ->
      MemoryReservation sysInfo = true)
  /\ ((10 <= k)%nat -> 0 < kernelMemory r -> KernelMemory sysInfo = true)
  /\ ((15 <= k)%nat -> 0 < cpuPeriod r -> CPUCfsPeriod sysInfo = true)
  /\ ((17 <= k)%nat -> 0 < cpuQuota r -> CPUCfsQuota sysInfo = true)
  /\ ((22 <= k)%nat -> 0 < blkioWeight r -> BlkioWeight sysInfo = true).

(** The capability whose absence a warning reports is absent. *)
Definition reportsAbsent (sysInfo : SysInfo) (msg : string) : bool :=
  if String.eqb msg warnMemoryLimit then negb (MemoryLimit sysInfo)
  else if String.eqb msg warnSwapLimit then negb (SwapLimit sysInfo)
  else if String.eqb msg warnMemorySwappiness
  then negb (MemorySwappiness sysInfo)
  else if String.eqb msg warnMemoryReservation
  then negb (MemoryReservation sysInfo)
  else if String.eqb msg warnKernelMemory then negb (KernelMemory sysInfo)
  else if String.eqb msg warnOomKillDisable
  then negb (OomKillDisable sysInfo)
  else if String.eqb msg warnPidsLimit then negb (PidsLimit sysInfo)
  else if String.eqb msg warnCPUShares then negb (CPUShares sysInfo)
  else if String.eqb msg warnCPUCfsPeriod then negb (CPUCfsPeriod sysInfo)
  else if String.eqb msg warnCPUCfsQuota then negb (CPUCfsQuota sysInfo)
  else if String.eqb msg warnCpuset then negb (Cpuset sysInfo)
  else if String.eqb msg warnBlkioWeight then negb (BlkioWeight sysInfo)
  else if String.eqb msg warnBlkioWeightDevice
  then negb (BlkioWeightDevice sysInfo)
  else if String.eqb msg warnBlkioReadBpsDevice
  then negb (BlkioReadBpsDevice sysInfo)
  else if String.eqb msg warnBlkioWriteBpsDevice
  then negb (BlkioWriteBpsDevice sysInfo)
  else if String.eqb msg warnBlkioReadIOpsDevice
  then negb (BlkioReadIOpsDevice sysInfo)
  else if String.eqb msg warnBlkioWriteIOpsDevice
  then negb (BlkioWriteIOpsDevice sysInfo)
  else false.

(** A host that supports everything but the swap limit. *)
Definition hostWithoutSwapLimit : SysInfo :=
  {| MemoryLimit := true; SwapLimit := false; MemoryReservation := true;
     OomKillDisable := true; MemorySwappiness := true;
     KernelMemory := true; PidsLimit := true; CPUShares := true;
     CPUCfsPeriod := true; CPUCfsQuota := true; Cpuset := true;
     Cpus := "0-3"; Mems := "0"; BlkioWeight := true;
     BlkioWeightDevice := true; BlkioReadBpsDevice := true;
     BlkioWriteBpsDevice := true; BlkioReadIOpsDevice := true;
     BlkioWriteIOpsDevice := true;
     IsCpusetCpusAvailable := fun _ => (true, None);
     IsCpusetMemsAvailable := fun _ => (true, None) |}.

End ResourcesVocabulary.

(** ** The model of [strings.Split] *)

Module stringsSpec.

Import strings.

(** The examples of the documentation of the Go package. *)
Example Split_examples :
  Split "a,b,c" "," = ["a"; "b"; "c"]
  /\ Split "a man a plan a canal panama" "a "
     = [""; "man "; "plan "; "canal panama"]
  /\ Split " xyz " "" = [" "; "x"; "y"; "z"; " "]
  /\ Split "" "Bernardo O'Higgins" = [""]
  /\ SplitN "a,b,c,d" "," 2 = ["a"; "b,c,d"]
  /\ SplitN "a,b,c,d" "," 0 = []
  /\ SplitN "/tmp:/data:rw,ro" ":" 3 = ["/tmp"; "/data"; "rw,ro"]
  /\ SplitN "a:b:c:d" ":" 3 = ["a"; "b"; "c:d"].
Proof. repeat split. Qed.

Lemma substring_length_le (n m : nat) (s : string) :
  (String.length (substring n m s) <= m)%nat.
Proof.
  revert n m; induction s as [|c s IH]; intros [|n] [|m]; cbn; try lia.
  - specialize (IH 0%nat m). lia.
  - apply IH.
  - apply IH.
Qed.

(** What is left after a cut is shorter than the string that was cut. *)
Lemma cut_shorter (sep s a b : string) :
  sep <> "" ->
  cut sep s = Some (a, b) ->
  (String.length b < String.length s)%nat.
Proof.
  intros Hsep. revert a b; induction s as [|c s IH]; intros a b.
  - destruct sep; [congruence|]. cbn. discriminate.
  - cbn [cut].
    destruct (String.prefix sep (String c s)) eqn:Hp.
    + intros [= <- <-].
      destruct sep as [|c' sep]; [congruence|]. cbn.
      pose proof (substring_length_le (String.length sep)
                    (String.length s - String.length sep) s) as Hle.
      lia.
    + destruct (cut sep s) as [[a' b']|]; [|discriminate].
      intros [= <- <-]. specialize (IH a' b' eq_refl).
      cbn [String.length]. lia.
Qed.

(** With as many cuts allowed as the string has bytes, [splitCuts] never
    stops for lack of cuts: allowing more changes nothing.  So [Split]
    gives all the substrings. *)
Lemma splitCuts_enough (sep : string) :
  sep <> "" ->
  forall (k1 k2 : nat) (s : string),
    (String.length s <= k1)%nat -> (String.length s <= k2)%nat ->
    splitCuts k1 sep s = splitCuts k2 sep s.
Proof.
  intros Hsep. induction k1 as [|k1 IH]; intros k2 s H1 H2.
  - destruct s; [|cbn in H1; lia].
    destruct k2; [reflexivity|]. cbn [splitCuts].
    destruct sep; [congruence|]. reflexivity.
  - destruct k2 as [|k2].
    + destruct s; [|cbn in H2; lia]. cbn [splitCuts].
      destruct sep; [congruence|]. reflexivity.
    + cbn [splitCuts]. destruct (cut sep s) as [[a b]|] eqn:Hc; [|reflexivity].
      pose proof (cut_shorter sep s a b Hsep Hc).
      f_equal. apply IH; lia.
Qed.

(** *** Cutting at the separator *)

Import Vocabulary.

Lemma prefix_split (sep s : string) :
  String.prefix sep s = true ->
  s = (sep ++ substring (String.length sep)
                 (String.length s - String.length sep) s)%string.
Proof.
  revert s; induction sep as [|c sep IH]; intros s H.
  - cbn. rewrite Nat.sub_0_r.
    clear H. induction s as [|c s IHs]; [reflexivity|].
    cbn. f_equal. exact IHs.
  - destruct s as [|c' s]; [discriminate H|].
    cbn in H. destruct (ascii_dec c c') as [->|]; [|discriminate H].
    cbn. f_equal. exact (IH s H).
Qed.

Lemma prefix_empty (s : string) : String.prefix "" s = true.
Proof. destruct s; reflexivity. Qed.

Lemma prefix_append (sep b : string) :
  String.prefix sep (sep ++ b) = true.
Proof.
  induction sep as [|c sep IH]; [apply prefix_empty|].
  cbn. destruct (ascii_dec c c); [exact IH | congruence].
Qed.

(** A cut gives the text before and after an occurrence of the
    separator. *)
Lemma cut_some (sep s a b : string) :
  cut sep s = Some (a, b) -> s = (a ++ sep ++ b)%string.
Proof.
  revert a b; induction s as [|c s IH]; intros a b; cbn [cut].
  - destruct (String.prefix sep "") eqn:Hp; [|discriminate].
    intros [= <- <-]. exact (prefix_split _ _ Hp).
  - destruct (String.prefix sep (String c s)) eqn:Hp.
    + intros [= <- <-]. exact (prefix_split _ _ Hp).
    + destruct (cut sep s) as [[a' b']|]; [|discriminate].
      intros [= <- <-]. cbn. f_equal. exact (IH _ _ eq_refl).
Qed.

(** There is no cut exactly when the separator does not occur. *)
Lemma cut_none (sep s : string) :
  cut sep s = None <-> ~ occurs sep s.
Proof.
  split.
  - induction s as [|c s IH]; cbn [cut].
    + destruct (String.prefix sep "") eqn:Hp; [discriminate|].
      intros _ (a & b & H). destruct a; [|discriminate H].
      cbn in H. rewrite H, prefix_append in Hp. discriminate Hp.
    + destruct (String.prefix sep (String c s)) eqn:Hp; [discriminate|].
      destruct (cut sep s) as [[a' b']|]; [discriminate|].
      intros _ (a & b & H). destruct a as [|c' a].
      * cbn in H. rewrite H, prefix_append in Hp. discriminate Hp.
      * cbn in H. injection H as _ H. apply IH; [reflexivity|].
        exists a, b. exact H.
  - intros Hno. destruct (cut sep s) as [[a b]|] eqn:Hc; [|reflexivity].
    exfalso. apply Hno. exists a, b. exact (cut_some _ _ _ _ Hc).
Qed.

(** The first cut at a one-byte separator is at the first such byte. *)
Lemma cut_byte (c : ascii) (a b : string) :
  hasByte c a = false ->
  cut (String c "") (a ++ String c b) = Some (a, b).
Proof.
  induction a as [|c' a IH]; intros Ha.
  - cbn [append cut String.prefix]. destruct (ascii_dec c c); [|congruence].
    rewrite prefix_empty. cbn. f_equal. f_equal.
    rewrite Nat.sub_0_r. clear. induction b as [|x b IHb]; [reflexivity|].
    cbn. f_equal. exact IHb.
  - cbn [hasByte] in Ha. apply orb_false_elim in Ha. destruct Ha as [Hc Ha].
    cbn [append cut String.prefix].
    destruct (ascii_dec c c') as [->|_].
    + rewrite Ascii.eqb_refl in Hc. discriminate Hc.
    + rewrite (IH Ha). reflexivity.
Qed.

Lemma cut_byte_none (c : ascii) (s : string) :
  hasByte c s = false -> cut (String c "") s = None.
Proof.
  induction s as [|c' s IH]; intros Hs.
  - reflexivity.
  - cbn [hasByte] in Hs. apply orb_false_elim in Hs. destruct Hs as [Hc Hs].
    cbn [cut String.prefix]. destruct (ascii_dec c c') as [->|_].
    + rewrite Ascii.eqb_refl in Hc. discriminate Hc.
    + rewrite (IH Hs). reflexivity.
Qed.

Lemma hasByte_occurs (c : ascii) (s : string) :
  hasByte c s = true <-> occurs (String c "") s.
Proof.
  split.
  - induction s as [|c' s IH]; [discriminate|].
    cbn [hasByte]. intros H. apply orb_true_iff in H. destruct H as [H|H].
    + apply Ascii.eqb_eq in H. subst c'. exists "", s. reflexivity.
    + destruct (IH H) as (a & b & ->). exists (String c' a), b. reflexivity.
  - intros Ho. destruct (hasByte c s) eqn:Hb; [reflexivity|].
    apply cut_byte_none in Hb. apply cut_none in Hb. contradiction.
Qed.

Lemma splitCuts_nonempty (k : nat) (sep s : string) :
  (1 <= List.length (splitCuts k sep s))%nat.
Proof.
  destruct k; cbn [splitCuts]; [cbn; lia|].
  destruct (cut sep s) as [[a b]|]; cbn; lia.
Qed.

(** [Split] gives fewer than two parts exactly when the separator does
    not occur. *)
Lemma Split_one_part (s sep : string) :
  sep <> "" ->
  ((Z.of_nat (List.length (Split s sep)) <? 2)%Z = true <-> ~ occurs sep s).
Proof.
  intros Hsep. unfold Split, SplitN.
  replace (-1 =? 0)%Z with false by reflexivity.
  replace (-1 <? 0)%Z with true by reflexivity.
  destruct (String.eqb_spec sep ""); [congruence|].
  rewrite <- cut_none. destruct s as [|c s].
  - cbn [String.length splitCuts List.length].
    split; [intros _|reflexivity].
    destruct sep; [congruence|reflexivity].
  - cbn [String.length splitCuts].
    destruct (cut sep (String c s)) as [[a b]|].
    + split; [|discriminate]. intros H. exfalso.
      pose proof (splitCuts_nonempty (String.length s) sep b).
      cbn [List.length] in H. apply Z.ltb_lt in H. lia.
    + split; reflexivity.
Qed.

(** The two parts of "k<sep>v" for a one-byte separator. *)
Lemma Split_pair (c : ascii) (k v : string) :
  hasByte c k = false -> hasByte c v = false ->
  Split (k ++ String c v) (String c "") = [k; v].
Proof.
  intros Hk Hv. unfold Split, SplitN.
  replace (-1 =? 0)%Z with false by reflexivity.
  replace (-1 <? 0)%Z with true by reflexivity.
  cbn [String.eqb].
  assert (Hsep : String c "" <> "") by discriminate.
  rewrite (splitCuts_enough (String c "") Hsep
             (String.length (k ++ String c v))
             (S (S (String.length (k ++ String c v)))) (k ++ String c v))
    by lia.
  cbn [splitCuts]. rewrite (cut_byte c k v Hk), (cut_byte_none c v Hv).
  reflexivity.
Qed.

(** [SplitN] with [n = 3] on "h:c" and on "h:c:o". *)
Lemma SplitN3_two (c : ascii) (h d : string) :
  hasByte c h = false -> hasByte c d = false ->
  SplitN (h ++ String c d) (String c "") 3 = [h; d].
Proof.
  intros Hh Hd. unfold SplitN. cbn [Z.eqb Z.ltb Z.compare String.eqb].
  change (Z.to_nat (3 - 1)) with 2%nat. cbn [splitCuts].
  rewrite (cut_byte c h d Hh), (cut_byte_none c d Hd). reflexivity.
Qed.

Lemma SplitN3_three (c : ascii) (h d o : string) :
  hasByte c h = false -> hasByte c d = false ->
  SplitN (h ++ String c (d ++ String c o)) (String c "") 3 = [h; d; o].
Proof.
  intros Hh Hd. unfold SplitN. cbn [Z.eqb Z.ltb Z.compare String.eqb].
  change (Z.to_nat (3 - 1)) with 2%nat. cbn [splitCuts].
  rewrite (cut_byte c h _ Hh), (cut_byte c d o Hd). reflexivity.
Qed.

Lemma SplitN3_one (s sep : string) :
  sep <> "" -> ~ occurs sep s -> SplitN s sep 3 = [s].
Proof.
  intros Hsep Hno. unfold SplitN. cbn [Z.eqb Z.ltb Z.compare].
  destruct (String.eqb_spec sep ""); [congruence|].
  change (Z.to_nat (3 - 1)) with 2%nat. cbn [splitCuts].
  apply cut_none in Hno. rewrite Hno. reflexivity.
Qed.

(** Whether the separator occurs can be decided by a cut. *)
Lemma cut_occurs_dec (s sep : string) : {occurs sep s} + {~ occurs sep s}.
Proof.
  destruct (cut sep s) as [[a b]|] eqn:Hc.
  - left. exists a, b. exact (cut_some _ _ _ _ Hc).
  - right. apply cut_none. exact Hc.
Qed.

End stringsSpec.

(** ** Properties of the volume validators *)

Module VolumesSpec.

Import Volumes.

Lemma parseVolumes_app (os_Stat : string -> option string)
    (l1 l2 : list string) :
  parseVolumes os_Stat (l1 ++ l2)
  = match parseVolumes os_Stat l1 with
    | Nil => parseVolumes os_Stat l2
    | r => r
    end.
Proof.
  induction l1 as [|v l1 IH]; [reflexivity|].
  cbn [app parseVolumes].
  destruct (parseVolume os_Stat v); [exact IH | reflexivity | reflexivity].
Qed.

Lemma validateVolumeCtrDir_relative (ctrDir : string) :
  ctrDir <> "" ->
  String.get 0 ctrDir <> Some "/"%char ->
  validateVolumeCtrDir ctrDir = Error (InvalidContainerDirectory ctrDir).
Proof.
  intros Hne Hrel. unfold validateVolumeCtrDir.
  destruct ctrDir as [|c rest]; [congruence|].
  cbn [String.get] in *.
  destruct (Ascii.eqb_spec c "/"%char) as [->|_]; [congruence|reflexivity].
Qed.

(** The second part of a volume, when the volume has one. *)
Lemma second_part (arr : list string) (ctrDir : string) :
  nth_error arr 1 = Some ctrDir ->
  (Z.of_nat (List.length arr) <? 2)%Z = false /\ nth 1 arr "" = ctrDir.
Proof.
  destruct arr as [|h [|c tl]]; cbn [nth_error]; try discriminate.
  intros [= ->]. split; [|reflexivity].
  apply Z.ltb_ge. cbn [List.length]. lia.
Qed.

(** C1 fails on the code: the counters are tested with [> 1] before they
    are incremented, so two options of one group pass and only a third
    is refused.  Every pair of options of one group is accepted, and so
    is the volume "/tmp:/data:rw,ro". *)
Theorem two_options_of_one_group_are_accepted :
  Forall (fun group =>
    Forall (fun a =>
      Forall (fun b => validateVolumeOpts (a ++ "," ++ b) = Nil) group)
      group) groups
  /\ validateVolumeOpts "rw,ro" = Nil
  /\ parseVolumes (fun _ => None) ["/tmp:/data:rw,ro"] = Nil
  /\ validateVolumeOpts "rw,ro,rw" = Error (OnlyOneRWRO "rw,ro,rw").
Proof.
  split; [|repeat split; reflexivity].
  unfold groups.
  repeat first [apply Forall_nil | apply Forall_cons]; reflexivity.
Qed.

(** Whatever the volume, an empty second part reaches [ctrDir[0]] as soon
    as the host directory exists. *)
Lemma parseVolume_empty_ctrDir (os_Stat : string -> option string)
    (volume : string) :
  nth_error (strings.SplitN volume ":" 3) 1 = Some "" ->
  os_Stat (nth 0 (strings.SplitN volume ":" 3) "") = None ->
  parseVolume os_Stat volume = PanicIndexOutOfRange 0 0.
Proof.
  intros Hsnd Hstat. apply second_part in Hsnd. destruct Hsnd as [Hlen Hnth].
  unfold parseVolume. cbv zeta. rewrite Hlen, Hnth.
  unfold validateVolumeHostDir. rewrite Hstat. reflexivity.
Qed.

(** C8 fails on the code: [validateVolumeCtrDir] reads byte 0 of its
    argument without looking at its length, so the empty container
    directory of "/tmp:" makes [parseVolumes] panic instead of returning
    an error. *)
Theorem empty_container_dir_panics :
  validateVolumeCtrDir "" = PanicIndexOutOfRange 0 0
  /\ strings.SplitN "/tmp:" ":" 3 = ["/tmp"; ""]
  /\ forall rest,
       parseVolumes (fun _ => None) ("/tmp:" :: rest)
       = PanicIndexOutOfRange 0 0.
Proof. repeat split. Qed.

(** C10: a volume whose container directory is not empty and does not
    start with '/' makes [parseVolumes] return an error, provided no
    earlier volume of the list panics; when the earlier volumes are
    valid and the host directory exists, the error is the one about the
    container directory. *)
Theorem relative_container_dir_is_refused
    (os_Stat : string -> option string)
    (pre post : list string) (volume ctrDir : string) :
  isPanic (parseVolumes os_Stat pre) = false ->
  nth_error (strings.SplitN volume ":" 3) 1 = Some ctrDir ->
  ctrDir <> "" ->
  String.get 0 ctrDir <> Some "/"%char ->
  isError (parseVolumes os_Stat (pre ++ volume :: post)) = true
  /\ (parseVolumes os_Stat pre = Nil ->
      os_Stat (nth 0 (strings.SplitN volume ":" 3) "") = None ->
      parseVolumes os_Stat (pre ++ volume :: post)
      = Error (InvalidContainerDirectory ctrDir)).
Proof.
  intros Hpre Hsnd Hne Hrel.
  apply second_part in Hsnd. destruct Hsnd as [Hlen Hnth].
  pose proof (validateVolumeCtrDir_relative ctrDir Hne Hrel) as Hctr.
  assert (Hv : parseVolume os_Stat volume
               = match os_Stat (nth 0 (strings.SplitN volume ":" 3) "") with
                 | Some cause =>
                     Error (ErrorCheckingPath cause
                              (nth 0 (strings.SplitN volume ":" 3) ""))
                 | None => Error (InvalidContainerDirectory ctrDir)
                 end).
  { unfold parseVolume. cbv zeta. rewrite Hlen, Hnth, Hctr.
    unfold validateVolumeHostDir. destruct (os_Stat _); reflexivity. }
  rewrite parseVolumes_app. cbn [parseVolumes]. rewrite Hv. split.
  - destruct (parseVolumes os_Stat pre); [|reflexivity|discriminate Hpre].
    destruct (os_Stat _); reflexivity.
  - intros -> ->. reflexivity.
Qed.

Lemma relative_container_dir_is_refused_witness :
  (isPanic (parseVolumes (fun _ => None) []) = false
   /\ nth_error (strings.SplitN "/tmp:rel/path" ":" 3) 1 = Some "rel/path"
   /\ "rel/path" <> ""
   /\ String.get 0 "rel/path" <> Some "/"%char)
  /\ parseVolumes (fun _ => None) ["/tmp:rel/path"]
     = Error (InvalidContainerDirectory "rel/path").
Proof.
  split.
  - repeat split; discriminate.
  - apply (relative_container_dir_is_refused (fun _ => None) [] []
             "/tmp:rel/path" "rel/path");
      first [reflexivity | discriminate].
Defined.

(** *** The anatomy of a volume *)

Import Vocabulary.

(** A volume without a colon is refused for its format, before anything is
    looked up on the host. *)
Theorem volume_without_colon_is_refused
    (os_Stat : string -> option string) (volume : string)
    (rest : list string) :
  hasByte ":" volume = false ->
  parseVolumes os_Stat (volume :: rest)
  = Error (IncorrectVolumeFormat volume).
Proof.
  intros Hno. cbn [parseVolumes]. unfold parseVolume. cbv zeta.
  rewrite stringsSpec.SplitN3_one; [reflexivity|discriminate|].
  intros Ho. apply stringsSpec.hasByte_occurs in Ho. congruence.
Qed.

Lemma volume_without_colon_is_refused_witness :
  hasByte ":" "/tmp" = false
  /\ parseVolumes (fun _ => None) ["/tmp"; "/a:/b"]
     = Error (IncorrectVolumeFormat "/tmp").
Proof.
  split; [reflexivity|].
  apply volume_without_colon_is_refused. reflexivity.
Defined.

Lemma parseVolume_two_parts
    (os_Stat : string -> option string) (hostDir ctrDir : string) :
  hasByte ":" hostDir = false ->
  hasByte ":" ctrDir = false ->
  parseVolume os_Stat (hostDir ++ ":" ++ ctrDir)
  = match os_Stat hostDir with
    | Some cause => Error (ErrorCheckingPath cause hostDir)
    | None => validateVolumeCtrDir ctrDir
    end.
Proof.
  intros Hh Hc. unfold parseVolume; cbv zeta.
  change (hostDir ++ ":" ++ ctrDir)%string
    with (hostDir ++ String ":" ctrDir)%string.
  rewrite (stringsSpec.SplitN3_two ":" hostDir ctrDir Hh Hc).
  cbn [List.length nth Z.of_nat]. unfold validateVolumeHostDir.
  destruct (os_Stat hostDir); [reflexivity|].
  destruct (validateVolumeCtrDir ctrDir); reflexivity.
Qed.

Lemma parseVolume_three_parts
    (os_Stat : string -> option string) (hostDir ctrDir option : string) :
  hasByte ":" hostDir = false ->
  hasByte ":" ctrDir = false ->
  parseVolume os_Stat (hostDir ++ ":" ++ ctrDir ++ ":" ++ option)
  = match os_Stat hostDir with
    | Some cause => Error (ErrorCheckingPath cause hostDir)
    | None =>
        match validateVolumeCtrDir ctrDir with
        | Nil => validateVolumeOpts option
        | err => err
        end
    end.
Proof.
  intros Hh Hc. unfold parseVolume; cbv zeta.
  change (hostDir ++ ":" ++ ctrDir ++ ":" ++ option)%string
    with (hostDir ++ String ":" (ctrDir ++ String ":" option))%string.
  rewrite (stringsSpec.SplitN3_three ":" hostDir ctrDir option Hh Hc).
  cbn [List.length nth Z.of_nat]. unfold validateVolumeHostDir.
  destruct (os_Stat hostDir); reflexivity.
Qed.

(** "host:ctr" and "host:ctr:options" are checked part by part: the host
    directory first, then the container directory, then the options,
    which are everything after the second colon. *)
Theorem volume_is_checked_part_by_part
    (os_Stat : string -> option string) (hostDir ctrDir : string) :
  hasByte ":" hostDir = false ->
  hasByte ":" ctrDir = false ->
  parseVolume os_Stat (hostDir ++ ":" ++ ctrDir)
  = match os_Stat hostDir with
    | Some cause => Error (ErrorCheckingPath cause hostDir)
    | None => validateVolumeCtrDir ctrDir
    end
  /\ forall option,
       parseVolume os_Stat (hostDir ++ ":" ++ ctrDir ++ ":" ++ option)
       = match os_Stat hostDir with
         | Some cause => Error (ErrorCheckingPath cause hostDir)
         | None =>
             match validateVolumeCtrDir ctrDir with
             | Nil => validateVolumeOpts option
             | err => err
             end
         end.
Proof.
  intros Hh Hc. split.
  - exact (parseVolume_two_parts os_Stat hostDir ctrDir Hh Hc).
  - intros option.
    exact (parseVolume_three_parts os_Stat hostDir ctrDir option Hh Hc).
Qed.

Lemma volume_is_checked_part_by_part_witness :
  (hasByte ":" "/tmp" = false /\ hasByte ":" "/data" = false)
  /\ parseVolume (fun _ => None) "/tmp:/data:ro,z:x"
     = Error (InvalidOptionType "ro,z:x").
Proof.
  split; [split; reflexivity|].
  exact (proj2 (volume_is_checked_part_by_part (fun _ => None)
                  "/tmp" "/data" eq_refl eq_refl) "ro,z:x").
Defined.

Lemma parseVolumes_all_pass
    (os_Stat : string -> option string) (volumes : list string) :
  parseVolumes os_Stat volumes = Nil
  <-> Forall (fun v => parseVolume os_Stat v = Nil) volumes.
Proof.
  induction volumes as [|v l IH]; cbn [parseVolumes].
  - split; [constructor|reflexivity].
  - rewrite Forall_cons_iff, <- IH.
    destruct (parseVolume os_Stat v); split; intros H;
      first [ tauto | discriminate | destruct H; discriminate ].
Qed.

(** [parseVolumes] accepts a list exactly when each of its volumes passes,
    and otherwise gives what the first volume that does not pass gives. *)
Theorem parseVolumes_first_failure
    (os_Stat : string -> option string) (volumes : list string) :
  (parseVolumes os_Stat volumes = Nil
   <-> Forall (fun v => parseVolume os_Stat v = Nil) volumes)
  /\ forall pre v post,
       volumes = (pre ++ v :: post)%list ->
       Forall (fun v => parseVolume os_Stat v = Nil) pre ->
       parseVolume os_Stat v <> Nil ->
       parseVolumes os_Stat volumes = parseVolume os_Stat v.
Proof.
  split; [apply parseVolumes_all_pass|].
  intros pre v post -> Hpre Hv. rewrite parseVolumes_app.
  apply parseVolumes_all_pass in Hpre. rewrite Hpre. cbn [parseVolumes].
  destruct (parseVolume os_Stat v); [congruence|reflexivity|reflexivity].
Qed.

(** A list of volumes "host:ctr" whose host directories exist and whose
    container directories are absolute paths is accepted. *)
Theorem well_formed_volumes_are_accepted
    (os_Stat : string -> option string)
    (pairs : list (string * string)) :
  Forall (fun p =>
            hasByte ":" (fst p) = false
            /\ hasByte ":" (snd p) = false
            /\ os_Stat (fst p) = None
            /\ String.get 0 (snd p) = Some "/"%char) pairs ->
  parseVolumes os_Stat (map (fun p => fst p ++ ":" ++ snd p)%string pairs)
  = Nil.
Proof.
  intros H. apply parseVolumes_all_pass.
  apply Forall_map. revert H. apply Forall_impl.
  intros [h d]. cbn [fst snd]. intros (Hh & Hd & Hs & Hg).
  rewrite (parseVolume_two_parts os_Stat h d Hh Hd), Hs.
  unfold validateVolumeCtrDir. rewrite Hg. reflexivity.
Qed.

Lemma well_formed_volumes_are_accepted_witness :
  Forall (fun p =>
            hasByte ":" (fst p) = false
            /\ hasByte ":" (snd p) = false
            /\ (fun _ : string => @None string) (fst p) = None
            /\ String.get 0 (snd p) = Some "/"%char)
    [("/tmp", "/data"); ("/var/lib", "/lib")]
  /\ parseVolumes (fun _ => None) ["/tmp:/data"; "/var/lib:/lib"] = Nil.
Proof.
  split.
  - repeat constructor.
  - apply (well_formed_volumes_are_accepted (fun _ => None)
             [("/tmp", "/data"); ("/var/lib", "/lib")]).
    repeat constructor.
Defined.

(** *** The options of a volume *)

Lemma countGroup_cons (group : list string) (opt : string)
    (options : list string) :
  countGroup group (opt :: options)
  = ((if inGroup group opt then 1 else 0) + countGroup group options)%Z.
Proof.
  unfold countGroup. cbn [filter].
  destruct (inGroup group opt); cbn [List.length]; lia.
Qed.

Lemma countGroup_nonneg (group : list string) (options : list string) :
  (0 <= countGroup group options)%Z.
Proof. unfold countGroup. lia. Qed.

(** The loop accepts the rest of the options exactly when they are all
    known and, for each group that still occurs, the counter and the
    occurrences to come stay within two. *)
Lemma validateVolumeOpts_loop_accepts (option : string)
    (options : list string) :
  forall foundRootPropagation foundRWRO foundLabelChange : Z,
    validateVolumeOpts_loop option options
      foundRootPropagation foundRWRO foundLabelChange = Nil
    <-> Forall (fun opt => existsb (fun g => inGroup g opt) groups = true)
          options
        /\ (countGroup (nth 0 groups []) options = 0
            \/ foundRWRO + countGroup (nth 0 groups []) options <= 2)%Z
        /\ (countGroup (nth 1 groups []) options = 0
            \/ foundLabelChange + countGroup (nth 1 groups []) options <= 2)%Z
        /\ (countGroup (nth 2 groups []) options = 0
            \/ foundRootPropagation
               + countGroup (nth 2 groups []) options <= 2)%Z.
Proof.
  induction options as [|opt rest IH]; intros fp frw fl.
  - cbn [validateVolumeOpts_loop]. split; [|reflexivity]. intros _.
    split; [constructor|]. repeat split; left; reflexivity.
  - cbn [validateVolumeOpts_loop]. rewrite Forall_cons_iff.
    rewrite !countGroup_cons.
    pose proof (countGroup_nonneg (nth 0 groups []) rest).
    pose proof (countGroup_nonneg (nth 1 groups []) rest).
    pose proof (countGroup_nonneg (nth 2 groups []) rest).
    unfold groups in *. cbn [nth existsb inGroup] in *.
    repeat match goal with
      | |- context [String.eqb opt ?lit] =>
          destruct (String.eqb_spec opt lit) as [->|?];
          [ cbn [String.eqb Ascii.eqb Bool.eqb orb andb] | ]
      end;
      cbn [orb];
      try match goal with
        | |- context [(?f >? 1)%Z] =>
            rewrite (Z.gtb_ltb f 1); destruct (Z.ltb_spec 1 f)
        end;
      try rewrite IH;
      cbn [orb];
      split; intros; intuition (try discriminate; try lia).
Qed.

(** [validateVolumeOpts] accepts an option string exactly when every
    option between the commas is one of the ten known ones and no group
    has more than two of them in the string: a group is refused at its
    third option. *)
Theorem validateVolumeOpts_accepts (option : string) :
  validateVolumeOpts option = Nil
  <-> Forall (fun opt => existsb (fun g => inGroup g opt) groups = true)
        (strings.Split option ",")
      /\ Forall (fun g => (countGroup g (strings.Split option ",") <= 2)%Z)
           groups.
Proof.
  unfold validateVolumeOpts. rewrite validateVolumeOpts_loop_accepts.
  pose proof (countGroup_nonneg (nth 0 groups []) (strings.Split option ",")).
  pose proof (countGroup_nonneg (nth 1 groups []) (strings.Split option ",")).
  pose proof (countGroup_nonneg (nth 2 groups []) (strings.Split option ",")).
  unfold groups in *. cbn [nth] in *.
  rewrite !Forall_cons_iff. intuition (try lia; try constructor).
Qed.

End VolumesSpec.

(** ** Properties of [convertStringSliceToMap] *)

Module SysctlSpec.

Import Sysctl Vocabulary.
Local Open Scope list_scope.

Lemma lookup_insert (k k' v : string) (m : Map) :
  lookup k (insert k' v m) = if String.eqb k' k then Some v else lookup k m.
Proof.
  unfold lookup, insert. cbn [find fst snd].
  destruct (String.eqb_spec k' k) as [->|Hne]; [reflexivity|].
  induction m as [|[k1 v1] m IH]; [reflexivity|].
  cbn [filter find fst snd].
  destruct (String.eqb_spec k1 k') as [->|Hne1]; cbn [negb].
  - destruct (String.eqb_spec k' k); [congruence|exact IH].
  - cbn [find fst snd]. destruct (String.eqb_spec k1 k); [reflexivity|exact IH].
Qed.

Lemma loop_app (l1 l2 : list string) (delimiter : string) (m : Map) :
  convertStringSliceToMap_loop (l1 ++ l2) delimiter m
  = match convertStringSliceToMap_loop l1 delimiter m with
    | (m', None) => convertStringSliceToMap_loop l2 delimiter m'
    | r => r
    end.
Proof.
  revert m; induction l1 as [|e l1 IH]; intros m; [reflexivity|].
  cbn [app convertStringSliceToMap_loop].
  destruct (Z.of_nat _ <? 2)%Z; [reflexivity|apply IH].
Qed.

Lemma loop_succeeds (strSlice : list string) (delimiter : string) :
  delimiter <> "" ->
  forall m,
    snd (convertStringSliceToMap_loop strSlice delimiter m) = None
    <-> Forall (occurs delimiter) strSlice.
Proof.
  intros Hd. induction strSlice as [|e l IH]; intros m;
    cbn [convertStringSliceToMap_loop].
  - split; [constructor|reflexivity].
  - rewrite Forall_cons_iff.
    pose proof (stringsSpec.Split_one_part e delimiter Hd) as Hone.
    destruct (Z.of_nat _ <? 2)%Z.
    + cbn [snd]. split; [discriminate|].
      intros [He _]. exfalso. apply (proj1 Hone); [reflexivity|exact He].
    + rewrite IH. split; [|tauto]. intros Hl. split; [|exact Hl].
      destruct (stringsSpec.cut_occurs_dec e delimiter) as [Ho|Hno]; [exact Ho|].
      apply Hone in Hno. discriminate Hno.
Qed.

(** With a delimiter that is not empty, the conversion succeeds exactly
    when every string of the slice contains the delimiter; otherwise the
    error names the first string that does not, and the map that comes
    with it is the one built from the strings before. *)
Theorem conversion_fails_at_first_string_without_delimiter
    (strSlice : list string) (delimiter : string) :
  delimiter <> "" ->
  (snd (convertStringSliceToMap strSlice delimiter) = None
   <-> Forall (occurs delimiter) strSlice)
  /\ forall pre bad post,
       strSlice = pre ++ bad :: post ->
       Forall (occurs delimiter) pre ->
       ~ occurs delimiter bad ->
       convertStringSliceToMap strSlice delimiter
       = (fst (convertStringSliceToMap pre delimiter),
          Some (InvalidSysctlValue bad)).
Proof.
  intros Hd. unfold convertStringSliceToMap. split.
  - apply loop_succeeds. exact Hd.
  - intros pre bad post -> Hpre Hbad. rewrite loop_app.
    apply (loop_succeeds pre delimiter Hd []) in Hpre.
    destruct (convertStringSliceToMap_loop pre delimiter []) as [m' [e|]];
      [discriminate Hpre|].
    cbn [fst convertStringSliceToMap_loop].
    apply (stringsSpec.Split_one_part bad delimiter Hd) in Hbad.
    rewrite Hbad. reflexivity.
Qed.

Lemma conversion_fails_at_first_string_without_delimiter_witness :
  "=" <> ""
  /\ convertStringSliceToMap ["net.core=1"; "kernel.shmmax"; "a=b"] "="
     = ([("net.core", "1")], Some (InvalidSysctlValue "kernel.shmmax")).
Proof.
  split; [discriminate|].
  refine (proj2 (conversion_fails_at_first_string_without_delimiter
                   ["net.core=1"; "kernel.shmmax"; "a=b"] "=" _)
            ["net.core=1"] "kernel.shmmax" ["a=b"] eq_refl _ _).
  - discriminate.
  - repeat constructor. exists "net.core", "1". reflexivity.
  - intros Ho. apply stringsSpec.hasByte_occurs in Ho. discriminate Ho.
Defined.

(** The join of a key and a value with a one-byte delimiter. *)
Lemma loop_round_trip (c : ascii) (kvs : list (string * string)) :
  Forall (fun p => hasByte c (fst p) = false /\ hasByte c (snd p) = false)
    kvs ->
  forall m,
    exists m',
      convertStringSliceToMap_loop
        (map (fun p => (fst p ++ String c (snd p))%string) kvs)
        (String c "") m = (m', None)
      /\ forall k, lookup k m'
                   = match lastBinding k kvs with
                     | Some v => Some v
                     | None => lookup k m
                     end.
Proof.
  induction 1 as [|[k0 v0] kvs [Hk Hv] _ IH]; intros m.
  - exists m. split; [reflexivity|]. intros k. reflexivity.
  - cbn [map convertStringSliceToMap_loop fst snd] in *.
    rewrite (stringsSpec.Split_pair c k0 v0 Hk Hv).
    cbn [List.length Z.of_nat nth].
    destruct (IH (insert k0 v0 m)) as (m' & Hrun & Hlook).
    exists m'. split; [exact Hrun|].
    intros k. rewrite Hlook, lookup_insert. cbn [lastBinding].
    destruct (lastBinding k kvs); [reflexivity|].
    destruct (String.eqb k0 k); reflexivity.
Qed.

(** Round trip: when keys and values do not contain the delimiter byte,
    converting the strings "key<delimiter>value" succeeds, and looking a
    key up in the map gives the value of the last string with that key
    (nothing when there is none). *)
Theorem conversion_round_trip (c : ascii) (kvs : list (string * string)) :
  Forall (fun p => hasByte c (fst p) = false /\ hasByte c (snd p) = false)
    kvs ->
  snd (convertStringSliceToMap
         (map (fun p => (fst p ++ String c (snd p))%string) kvs)
         (String c "")) = None
  /\ forall k,
       lookup k (fst (convertStringSliceToMap
                        (map (fun p => (fst p ++ String c (snd p))%string) kvs)
                        (String c "")))
       = lastBinding k kvs.
Proof.
  intros H. unfold convertStringSliceToMap.
  destruct (loop_round_trip c kvs H []) as (m' & -> & Hlook).
  split; [reflexivity|]. intros k. cbn [fst].
  rewrite Hlook. destruct (lastBinding k kvs); reflexivity.
Qed.

Lemma conversion_round_trip_witness :
  Forall (fun p => hasByte "=" (fst p) = false /\ hasByte "=" (snd p) = false)
    [("a", "1"); ("b", "2"); ("a", "3")]
  /\ lookup "a" (fst (convertStringSliceToMap ["a=1"; "b=2"; "a=3"] "="))
     = Some "3".
Proof.
  split; [repeat constructor|].
  exact (proj2 (conversion_round_trip "="
                  [("a", "1"); ("b", "2"); ("a", "3")]
                  ltac:(repeat constructor)) "a").
Defined.

(** Only the text between the first and the second delimiter is the
    value: what follows a second delimiter is dropped. *)
Theorem value_stops_at_second_delimiter
    (c : ascii) (pre : list string) (k v w : string) :
  hasByte c k = false ->
  hasByte c v = false ->
  snd (convertStringSliceToMap pre (String c "")) = None ->
  let entry := (k ++ String c (v ++ String c w))%string in
  snd (convertStringSliceToMap (pre ++ [entry]) (String c "")) = None
  /\ lookup k (fst (convertStringSliceToMap (pre ++ [entry]) (String c "")))
     = Some v.
Proof.
  intros Hk Hv Hpre entry. unfold convertStringSliceToMap in *.
  rewrite loop_app.
  destruct (convertStringSliceToMap_loop pre (String c "") []) as [m' [e|]];
    [discriminate Hpre|].
  cbn [convertStringSliceToMap_loop].
  assert (Hsplit : exists tail,
            strings.Split entry (String c "") = k :: v :: tail).
  { subst entry. unfold strings.Split, strings.SplitN.
    replace (-1 =? 0)%Z with false by reflexivity.
    replace (-1 <? 0)%Z with true by reflexivity.
    cbn [String.eqb].
    assert (Hsep : String c "" <> "") by discriminate.
    rewrite (stringsSpec.splitCuts_enough (String c "") Hsep
               (String.length (k ++ String c (v ++ String c w)))
               (S (S (String.length (k ++ String c (v ++ String c w)))))
               (k ++ String c (v ++ String c w))) by lia.
    cbn [strings.splitCuts].
    rewrite (stringsSpec.cut_byte c k _ Hk), (stringsSpec.cut_byte c v w Hv).
    eexists. reflexivity. }
  destruct Hsplit as [tail ->].
  cbn [List.length nth]. 
  replace (Z.of_nat (S (S (List.length tail))) <? 2)%Z with false
    by (symmetry; apply Z.ltb_ge; lia).
  cbn [fst snd]. split; [reflexivity|].
  rewrite lookup_insert, String.eqb_refl. reflexivity.
Qed.

Lemma value_stops_at_second_delimiter_witness :
  (hasByte "=" "a" = false /\ hasByte "=" "b" = false
   /\ snd (convertStringSliceToMap ["x=y"] "=") = None)
  /\ lookup "a" (fst (convertStringSliceToMap ["x=y"; "a=b=c"] "="))
     = Some "b".
Proof.
  split; [repeat split|].
  exact (proj2 (value_stops_at_second_delimiter "=" ["x=y"] "a" "b" "c"
                  eq_refl eq_refl eq_refl)).
Defined.

End SysctlSpec.

(** ** Properties of the resource-limit cascade *)

Module ResourcesSpec.

Import Resources.
Local Open Scope Z_scope.
Local Open Scope list_scope.

(** *** Blocks *)

Lemma block_cons (c : stmt) (rest : list stmt) (s : state) :
  block (c :: rest) s
  = match c s with
    | Next s' => block rest s'
    | Return s' err => Return s' err
    end.
Proof. reflexivity. Qed.

Lemma block_app (l1 l2 : list stmt) (s : state) :
  block (l1 ++ l2) s = seq (block l1) (block l2) s.
Proof.
  revert s; induction l1 as [|c l1 IH]; intros s; [reflexivity|].
  cbn [app]. rewrite block_cons. unfold seq at 1. rewrite block_cons.
  destruct (c s) as [s'|s' err]; [|reflexivity].
  rewrite IH. reflexivity.
Qed.

(** A block that returns does so in one of its statements, reached by
    falling through all the statements before it. *)
Lemma block_return_inv (stmts : list stmt) (s s' : state) (err : error) :
  block stmts s = Return s' err ->
  exists pre c post s1,
    stmts = pre ++ c :: post /\ block pre s = Next s1 /\ c s1 = Return s' err.
Proof.
  revert s; induction stmts as [|c rest IH]; intros s H.
  - discriminate H.
  - rewrite block_cons in H. destruct (c s) as [s1|s1 e1] eqn:Hc.
    + destruct (IH _ H) as (pre & c' & post & s2 & -> & Hpre & Hc').
      exists (c :: pre), c', post, s2. repeat split; [|exact Hc'].
      rewrite block_cons, Hc. exact Hpre.
    + inversion H; subst. exists [], c, rest, s. repeat split. exact Hc.
Qed.

(** The rule of sequence and the rule of invariants for blocks. *)
Lemma triple_seq (P Q R : state -> Prop) (E : state -> error -> Prop)
    (a b : stmt) :
  triple P a Q E -> triple Q b R E -> triple P (seq a b) R E.
Proof.
  intros Ha Hb s HP. unfold seq. specialize (Ha s HP).
  destruct (a s) as [s'|s' err]; [exact (Hb s' Ha) | exact Ha].
Qed.

Lemma triple_block (I : state -> Prop) (E : state -> error -> Prop)
    (stmts : list stmt) :
  Forall (fun c => triple I c I E) stmts -> triple I (block stmts) I E.
Proof.
  induction 1 as [|c rest Hc _ IH].
  - intros s HI. exact HI.
  - intros s HI. rewrite block_cons. specialize (Hc s HI).
    destruct (c s) as [s'|s' err]; [exact (IH s' Hc) | exact Hc].
Qed.

Lemma triple_split (n : nat) (P Q R : state -> Prop)
    (E : state -> error -> Prop) (stmts : list stmt) :
  triple P (block (firstn n stmts)) Q E ->
  triple Q (block (skipn n stmts)) R E ->
  triple P (block stmts) R E.
Proof.
  intros H1 H2 s HP. rewrite <- (firstn_skipn n stmts), block_app.
  exact (triple_seq P Q R E _ _ H1 H2 s HP).
Qed.

(** *** Automation: one statement at a time *)

Ltac reduce :=
  cbn beta iota delta [config resources warnings
    blkioWeight blkioWeightDevice cpuPeriod cpuQuota cpuShares cpusetCpus
    cpusetMems deviceReadBps deviceReadIOps deviceWriteBps deviceWriteIOps
    disableOomKiller kernelMemory memory memoryReservation memorySwap
    memorySwappiness pidsLimit
    MemoryLimit SwapLimit MemoryReservation OomKillDisable MemorySwappiness
    KernelMemory PidsLimit CPUShares CPUCfsPeriod CPUCfsQuota Cpuset Cpus
    Mems BlkioWeight BlkioWeightDevice BlkioReadBpsDevice
    BlkioWriteBpsDevice BlkioReadIOpsDevice BlkioWriteIOpsDevice
    IsCpusetCpusAvailable IsCpusetMemsAvailable
    andb orb negb Bool.eqb List.length Z.of_nat] in *.

Ltac reduce_goal :=
  cbn beta iota delta [config resources warnings
    blkioWeight blkioWeightDevice cpuPeriod cpuQuota cpuShares cpusetCpus
    cpusetMems deviceReadBps deviceReadIOps deviceWriteBps deviceWriteIOps
    disableOomKiller kernelMemory memory memoryReservation memorySwap
    memorySwappiness pidsLimit
    MemoryLimit SwapLimit MemoryReservation OomKillDisable MemorySwappiness
    KernelMemory PidsLimit CPUShares CPUCfsPeriod CPUCfsQuota Cpuset Cpus
    Mems BlkioWeight BlkioWeightDevice BlkioReadBpsDevice
    BlkioWriteBpsDevice BlkioReadIOpsDevice BlkioWriteIOpsDevice
    IsCpusetCpusAvailable IsCpusetMemsAvailable
    andb orb negb Bool.eqb List.length Z.of_nat].

Ltac unfold_stmt :=
  unfold If, IfElse, ReturnErr, Warn, Assign, Available, seq, skip,
    addWarning, linuxMinMemory,
    set_blkioWeight, set_blkioWeightDevice, set_cpuPeriod, set_cpuQuota,
    set_cpuShares, set_cpusetCpus, set_cpusetMems, set_deviceReadBps,
    set_deviceReadIOps, set_deviceWriteBps, set_deviceWriteIOps,
    set_disableOomKiller, set_kernelMemory, set_memory,
    set_memoryReservation, set_memorySwap, set_memorySwappiness,
    set_pidsLimit in *;
  reduce.

(** Case analysis on the tests that the goal still branches on. *)
Ltac tests :=
  repeat (reduce_goal;
    match goal with
    | |- context [Z.gtb ?a ?b] => rewrite (Z.gtb_ltb a b)
    | |- context [Z.ltb ?a ?b] => destruct (Z.ltb_spec a b)
    | |- context [Z.eqb ?a ?b] => destruct (Z.eqb_spec a b)
    | |- context [String.eqb ?a ?b] => destruct (String.eqb_spec a b)
    | |- context [if ?b then _ else _] => is_var b; destruct b
    | |- context [negb ?b] => is_var b; destruct b
    | |- context [andb ?b _] => is_var b; destruct b
    | |- context [Bool.eqb ?b _] => is_var b; destruct b
    | |- context [match ?q ?a with pair _ _ => _ end] =>
        is_var q; destruct (q a) as [? [?|]] eqn:?
    end);
  reduce_goal.

Ltac open_state s := destruct s as [[[]] ?].
Ltac open_host := match goal with si : SysInfo |- _ => destruct si end.

Ltac finish :=
  intros; subst;
  try match goal with H : Next _ = Next _ |- _ => inversion H; clear H end;
  try match goal with H : Return _ _ = Return _ _ |- _ =>
        inversion H; clear H end;
  subst;
  first [ reflexivity | discriminate | lia | congruence
        | solve [repeat split; intros; first [reflexivity | lia | congruence]]
        | solve [intuition (subst; first [reflexivity | lia | congruence])] ].

(** Split a property of every statement of a list into one goal per
    statement. *)
Ltac each_stmt :=
  unfold body; cbn [skipn firstn];
  repeat first [apply Forall_nil | apply Forall_cons].

Ltac stmt_triple :=
  let s := fresh "s" in
  unfold triple; intros s; open_state s; unfold_stmt; tests; finish.

(** From a triple of the whole body to the value the call returns. *)
Lemma verify_triple (sysInfo : SysInfo) (update : bool) (cfg : createConfig)
    (Q : state -> Prop) (E : state -> error -> Prop) :
  triple (fun s => s = mkState cfg []) (block (body sysInfo update)) Q E ->
  match verifyContainerResources sysInfo update cfg with
  | (cfg', ws, None) => Q (mkState cfg' ws)
  | (cfg', ws, Some err) => E (mkState cfg' ws) err
  end.
Proof.
  intros T. unfold verifyContainerResources. specialize (T _ eq_refl).
  destruct (block (body sysInfo update) (mkState cfg [])) as [[c w]|[c w] e];
    exact T.
Qed.

(** *** The minimum of the memory limit *)

(** C4: a memory limit strictly between 0 and 4MiB is refused with the
    minimum-memory error, whatever the host supports; nothing is changed
    and no warning is given. *)
Theorem memory_below_minimum_is_refused
    (sysInfo : SysInfo) (update : bool) (cfg : createConfig) :
  0 < memory (resources cfg) < linuxMinMemory ->
  verifyContainerResources sysInfo update cfg
  = (cfg, [], Some MinimumMemory).
Proof.
  intros H. unfold verifyContainerResources, body.
  rewrite block_cons. destruct cfg as [[]]. unfold_stmt.
  revert H. tests; finish.
Qed.

Lemma memory_below_minimum_is_refused_witness :
  0 < memory (resources (mkConfig (set_memory 4194303 unset)))
    < linuxMinMemory
  /\ verifyContainerResources (hostWith false) true
       (mkConfig (set_memory 4194303 unset))
     = (mkConfig (set_memory 4194303 unset), [], Some MinimumMemory).
Proof.
  split.
  - vm_compute. split; reflexivity.
  - apply memory_below_minimum_is_refused. vm_compute. split; reflexivity.
Defined.

(** *** Short circuit on the first hard error *)

Lemma body_returnsUnchanged (sysInfo : SysInfo) (update : bool) :
  Forall returnsUnchanged (body sysInfo update).
Proof.
  open_host. each_stmt; intros s; open_state s; unfold_stmt; tests; finish.
Qed.

Lemma body_appendsWarnings (sysInfo : SysInfo) (update : bool) :
  Forall appendsWarnings (body sysInfo update).
Proof.
  open_host. each_stmt; intros s; open_state s; unfold_stmt; tests;
    first [ exists []; cbn [warnings]; rewrite app_nil_r; reflexivity
          | eexists; cbn [warnings]; reflexivity ].
Qed.

Lemma block_appendsWarnings (stmts : list stmt) :
  Forall appendsWarnings stmts -> appendsWarnings (block stmts).
Proof.
  induction 1 as [|c rest Hc _ IH]; intros s.
  - exists []. cbn. rewrite app_nil_r. reflexivity.
  - rewrite block_cons. specialize (Hc s).
    destruct (c s) as [s1|s1 e1]; [|exact Hc].
    destruct Hc as [m1 H1]. specialize (IH s1).
    destruct (block rest s1) as [s2|s2 e2]; destruct IH as [m2 H2];
      exists (m1 ++ m2); rewrite H2, H1, app_assoc; reflexivity.
Qed.

Lemma Forall_middle {A} (P : A -> Prop) (l1 l2 : list A) (x : A) :
  Forall P (l1 ++ x :: l2) -> Forall P l1 /\ P x /\ Forall P l2.
Proof.
  intros H. apply Forall_app in H. destruct H as [H1 H2].
  inversion H2; subst. auto.
Qed.

(** C5: when the call returns an error, the configuration and the
    warnings it returns are exactly those left by the statements before
    the one that returned: that statement changed nothing, no later
    statement ran, and the warnings that were present at any earlier
    point of the run are all in the returned list. *)
Theorem hard_error_short_circuits
    (sysInfo : SysInfo) (update : bool) (cfg cfg' : createConfig)
    (ws : list string) (err : error) :
  verifyContainerResources sysInfo update cfg = (cfg', ws, Some err) ->
  exists pre c post,
    body sysInfo update = pre ++ c :: post
    /\ block pre (mkState cfg []) = Next (mkState cfg' ws)
    /\ c (mkState cfg' ws) = Return (mkState cfg' ws) err
    /\ forall n s, block (firstn n pre) (mkState cfg []) = Next s ->
         exists more, ws = warnings s ++ more.
Proof.
  unfold verifyContainerResources. intros H.
  destruct (block (body sysInfo update) (mkState cfg [])) as [s'|s' e] eqn:Hb;
    cbn in H; [discriminate H|].
  destruct s' as [c' w']. cbn in H. inversion H; subst; clear H.
  apply block_return_inv in Hb.
  destruct Hb as (pre & c & post & s1 & Hbody & Hpre & Hc).
  pose proof (body_returnsUnchanged sysInfo update) as HU.
  pose proof (body_appendsWarnings sysInfo update) as HA.
  rewrite Hbody in HU, HA.
  apply Forall_middle in HU. destruct HU as (_ & HUc & _).
  apply Forall_middle in HA. destruct HA as (HApre & _ & _).
  pose proof (HUc _ _ _ Hc) as Hs1. subst s1.
  exists pre, c, post. repeat split; try assumption.
  intros n s Hn.
  rewrite <- (firstn_skipn n pre), block_app in Hpre.
  unfold seq in Hpre. rewrite Hn in Hpre.
  assert (HAs : Forall appendsWarnings (skipn n pre)).
  { rewrite <- (firstn_skipn n pre) in HApre.
    apply Forall_app in HApre. exact (proj2 HApre). }
  pose proof (block_appendsWarnings _ HAs s) as Hw.
  rewrite Hpre in Hw. exact Hw.
Qed.

Lemma hard_error_short_circuits_witness :
  let cfg := mkConfig (set_disableOomKiller true (set_cpuPeriod 500 unset)) in
  let cfg' := mkConfig (set_cpuPeriod 500 unset) in
  verifyContainerResources hostWithoutOomKillDisable false cfg
  = (cfg', [warnOomKillDisable], Some CpuPeriodRange)
  /\ exists pre c post,
       body hostWithoutOomKillDisable false = pre ++ c :: post
       /\ block pre (mkState cfg []) = Next (mkState cfg' [warnOomKillDisable])
       /\ c (mkState cfg' [warnOomKillDisable])
          = Return (mkState cfg' [warnOomKillDisable]) CpuPeriodRange
       /\ forall n s, block (firstn n pre) (mkState cfg []) = Next s ->
            exists more, [warnOomKillDisable] = warnings s ++ more.
Proof.
  split.
  - vm_compute. reflexivity.
  - apply hard_error_short_circuits. vm_compute. reflexivity.
Defined.

(** *** Swap limit below the memory limit *)

(** C2, as the spec states it, fails: on a host without the memory-limit
    capability a request with 0 < swap < memory is downgraded and
    accepted. *)
Lemma swap_below_memory_counterexample :
  let cfg := mkConfig (set_memory 8388608 (set_memorySwap 4194304 unset)) in
  0 < memory (resources cfg)
  /\ 0 < memorySwap (resources cfg)
  /\ memorySwap (resources cfg) < memory (resources cfg)
  /\ verifyContainerResources (hostWith false) false cfg
     = (mkConfig (set_memory 0 (set_memorySwap (-1) unset)),
        [warnMemoryLimit], None).
Proof. vm_compute. repeat split; reflexivity. Qed.

(** C2, amended: with 0 < swap < memory, the call returns the
    swap-ordering error exactly when the memory limit is at least 4MiB
    and the host has both the memory-limit and the swap-limit capability;
    the configuration is then unchanged and there is no warning. *)
Theorem swap_below_memory_is_refused
    (sysInfo : SysInfo) (update : bool) (cfg : createConfig) :
  0 < memory (resources cfg) ->
  0 < memorySwap (resources cfg) ->
  memorySwap (resources cfg) < memory (resources cfg) ->
  let reached := linuxMinMemory <= memory (resources cfg)
                 /\ MemoryLimit sysInfo = true
                 /\ SwapLimit sysInfo = true in
  (reached -> verifyContainerResources sysInfo update cfg
              = (cfg, [], Some SwapLessThanMemory))
  /\ (snd (verifyContainerResources sysInfo update cfg)
      = Some SwapLessThanMemory -> reached).
Proof.
  intros Hm Hs Hsm reached.
  assert (T : triple (fun s => s = mkState cfg [])
                (block (body sysInfo update))
                (fun _ => ~ reached)
                (fun s err =>
                   (reached -> s = mkState cfg [] /\ err = SwapLessThanMemory)
                   /\ (err = SwapLessThanMemory -> reached))).
  { subst reached. destruct cfg as [[]]. open_host. unfold_stmt.
    apply (triple_split 4) with (Q := fun _ =>
      ~ (4194304 <= memory0 /\ MemoryLimit0 = true /\ SwapLimit0 = true)).
    - unfold body; cbn [firstn block]. unfold triple.
      intros s ->. unfold_stmt. revert Hm Hs Hsm. tests; finish.
    - apply triple_block. each_stmt; stmt_triple. }
  apply verify_triple in T.
  destruct (verifyContainerResources sysInfo update cfg) as [[c w] [e|]];
    cbn [snd]; split; intros H.
  - destruct T as [T _]. destruct (T H) as [T1 ->].
    inversion T1. reflexivity.
  - destruct T as [_ T]. apply T. congruence.
  - contradiction.
  - discriminate H.
Qed.

Lemma swap_below_memory_is_refused_witness :
  let cfg := mkConfig (set_memory 8388608 (set_memorySwap 4194304 unset)) in
  (0 < memory (resources cfg)
   /\ 0 < memorySwap (resources cfg)
   /\ memorySwap (resources cfg) < memory (resources cfg))
  /\ verifyContainerResources (hostWith true) false cfg
     = (cfg, [], Some SwapLessThanMemory).
Proof.
  split.
  - vm_compute. repeat split; reflexivity.
  - apply (swap_below_memory_is_refused (hostWith true) false
             (mkConfig (set_memory 8388608 (set_memorySwap 4194304 unset)))).
    + vm_compute; reflexivity.
    + vm_compute; reflexivity.
    + vm_compute; reflexivity.
    + vm_compute. repeat split; discriminate.
Defined.

(** *** Idempotence *)

Ltac stmt_quiet :=
  tests; intros; cbn [app] in *;
  first [ reflexivity | exact I | discriminate | lia | congruence ].

Lemma body_settles (sysInfo : SysInfo) (update : bool) :
  Forall settles (body sysInfo update).
Proof.
  open_host. each_stmt; unfold settles, quiet; intros s;
    open_state s; unfold_stmt; stmt_quiet.
Qed.

Lemma body_keepsQuiet (sysInfo : SysInfo) (update : bool) :
  ForallOrdPairs keepsQuiet (body sysInfo update).
Proof.
  open_host. unfold body.
  repeat first [apply FOP_nil | apply FOP_cons];
    repeat first [apply Forall_nil | apply Forall_cons];
    unfold keepsQuiet, quiet; intros s;
    open_state s; unfold_stmt;
    (let Hq := fresh "Hq" in
     intros Hq; specialize (Hq []); revert Hq; stmt_quiet).
Qed.

Lemma ForallOrdPairs_before {A} (R : A -> A -> Prop) (l1 l2 : list A) (x : A) :
  ForallOrdPairs R (l1 ++ x :: l2) -> Forall (fun d => R d x) l1.
Proof.
  induction l1 as [|a l1 IH]; intros H; [constructor|].
  cbn [app] in H. inversion H as [|? ? Ha Hrest]; subst.
  constructor; [|exact (IH Hrest)].
  apply Forall_app in Ha. destruct Ha as [_ Ha]. inversion Ha; assumption.
Qed.

(** At the end of a run that fell through, every statement of the block
    is quiet. *)
Lemma run_leaves_quiet (todo : list stmt) :
  forall (done : list stmt) (s s' : state),
    ForallOrdPairs keepsQuiet (done ++ todo) ->
    Forall settles todo ->
    Forall (fun d => quiet d (config s)) done ->
    block todo s = Next s' ->
    Forall (fun d => quiet d (config s')) (done ++ todo).
Proof.
  induction todo as [|c rest IH]; intros done s s' Hpairs Hsettle Hdone Hrun.
  - cbn in Hrun. inversion Hrun; subst. rewrite app_nil_r. exact Hdone.
  - rewrite block_cons in Hrun. destruct (c s) as [s1|s1 e1] eqn:Hc;
      [|discriminate Hrun].
    inversion Hsettle as [|? ? Hsc Hsrest]; subst.
    replace (done ++ c :: rest) with ((done ++ [c]) ++ rest)
      by (rewrite <- app_assoc; reflexivity).
    apply (IH (done ++ [c]) s1 s').
    + rewrite <- app_assoc. exact Hpairs.
    + exact Hsrest.
    + apply Forall_app. split.
      * pose proof (ForallOrdPairs_before _ _ _ _ Hpairs) as Hk.
        rewrite Forall_forall in *. intros d Hd.
        pose proof (Hk d Hd s (Hdone d Hd)) as Hd1.
        rewrite Hc in Hd1. exact Hd1.
      * specialize (Hsc s). rewrite Hc in Hsc.
        constructor; [exact Hsc | constructor].
    + exact Hrun.
Qed.

Lemma quiet_block (stmts : list stmt) (cfg : createConfig) :
  Forall (fun d => quiet d cfg) stmts ->
  forall ws, block stmts (mkState cfg ws) = Next (mkState cfg ws).
Proof.
  induction 1 as [|c rest Hc _ IH]; intros ws; [reflexivity|].
  rewrite block_cons, (Hc ws). apply IH.
Qed.

(** C6: when the call succeeds, a second call on the configuration it
    left, with the same capability report and the same [update] flag,
    succeeds as well, gives no warning and changes no field. *)
Theorem verify_is_idempotent
    (sysInfo : SysInfo) (update : bool) (cfg cfg' : createConfig)
    (ws : list string) :
  verifyContainerResources sysInfo update cfg = (cfg', ws, None) ->
  verifyContainerResources sysInfo update cfg' = (cfg', [], None).
Proof.
  unfold verifyContainerResources. intros H.
  destruct (block (body sysInfo update) (mkState cfg [])) as [s'|s' e] eqn:Hb;
    cbn in H; [|discriminate H].
  destruct s' as [c' w']. cbn in H. inversion H; subst; clear H.
  pose proof (run_leaves_quiet (body sysInfo update) [] _ _
                (body_keepsQuiet sysInfo update)
                (body_settles sysInfo update)
                (Forall_nil _) Hb) as Hq.
  cbn [app config] in Hq.
  rewrite (quiet_block _ _ Hq []). reflexivity.
Qed.

Lemma verify_is_idempotent_witness :
  let cfg := mkConfig (set_memory 8388608 (set_memorySwap 4194304
               (set_cpuPeriod 500 (set_disableOomKiller true unset)))) in
  let cfg' := mkConfig (set_memorySwap (-1) unset) in
  verifyContainerResources (hostWith false) false cfg
  = (cfg', [warnMemoryLimit; warnOomKillDisable; warnCPUCfsPeriod], None)
  /\ verifyContainerResources (hostWith false) false cfg' = (cfg', [], None).
Proof.
  split.
  - vm_compute. reflexivity.
  - apply (verify_is_idempotent (hostWith false) false
             (mkConfig (set_memory 8388608 (set_memorySwap 4194304
                (set_cpuPeriod 500 (set_disableOomKiller true unset)))))
             (mkConfig (set_memorySwap (-1) unset))
             [warnMemoryLimit; warnOomKillDisable; warnCPUCfsPeriod]).
    vm_compute. reflexivity.
Defined.

(** *** Warnings in the list *)

Lemma triple_weaken (P P' Q Q' : state -> Prop)
    (E E' : state -> error -> Prop) (c : stmt) :
  triple P' c Q' E' ->
  (forall s, P s -> P' s) ->
  (forall s, Q' s -> Q s) ->
  (forall s err, E' s err -> E s err) ->
  triple P c Q E.
Proof.
  intros T HP HQ HE s Hs. specialize (T s (HP s Hs)).
  destruct (c s) as [s'|s' err]; auto.
Qed.

(** Two different messages are not equal. *)
Ltac differ H :=
  exfalso; apply String.eqb_eq in H; vm_compute in H; discriminate H.

Ltac warning_facts :=
  rewrite ?in_app_iff, ?count_occ_app in *; cbn [In count_occ] in *;
  repeat match goal with
    | |- context [string_dec ?a ?b] =>
        destruct (string_dec a b) as [?Heq | ?Hneq];
        [ first [ differ Heq | idtac ] | try (exfalso; apply Hneq; reflexivity) ]
    end.

Ltac finish_warnings :=
  intros; reduce; warning_facts;
  repeat match goal with
    | H : _ /\ _ |- _ => destruct H
    end;
  subst;
  first [ exact I | lia | congruence
        | solve [ intuition
                    (subst;
                     try match goal with
                       | H : @eq string _ _ |- _ => differ H
                       end;
                     first [ reflexivity | lia | congruence | discriminate ]) ] ].

(** *** The memory limit on a host without the capability *)

(** C3: with a memory limit of at least 4MiB on a host without the
    memory-limit capability, the call leaves [memory] at 0 and
    [memorySwap] at -1 and gives the memory-capability warning exactly
    once, whatever the other fields are and however the call ends; and
    when the other fields are unset (and the host finds the empty cpuset
    available) the call succeeds with that warning only. *)
Theorem memory_limit_unsupported
    (sysInfo : SysInfo) (update : bool) (cfg : createConfig) :
  linuxMinMemory <= memory (resources cfg) ->
  MemoryLimit sysInfo = false ->
  (let '(cfg', ws, _) := verifyContainerResources sysInfo update cfg in
   memory (resources cfg') = 0
   /\ memorySwap (resources cfg') = -1
   /\ count_occ string_dec ws warnMemoryLimit = 1%nat)
  /\ (set_memory 0 (set_memorySwap (-1) (resources cfg))
      = set_memorySwap (-1) unset ->
      IsCpusetCpusAvailable sysInfo "" = (true, None) ->
      IsCpusetMemsAvailable sysInfo "" = (true, None) ->
      verifyContainerResources sysInfo update cfg
      = (mkConfig (set_memorySwap (-1) unset), [warnMemoryLimit], None)).
Proof.
  intros Hmin Hcap. split.
  - pose (I := fun s : state =>
                 memory (resources (config s)) = 0
                 /\ memorySwap (resources (config s)) = -1
                 /\ count_occ string_dec (warnings s) warnMemoryLimit = 1%nat).
    assert (T : triple (fun s => s = mkState cfg [])
                  (block (body sysInfo update)) I (fun s _ => I s)).
    { subst I. destruct cfg as [[]]. open_host. unfold_stmt. subst.
      apply (triple_split 2) with (Q := fun s : state =>
        memory (resources (config s)) = 0
        /\ memorySwap (resources (config s)) = -1
        /\ count_occ string_dec (warnings s) warnMemoryLimit = 1%nat).
      - unfold body; cbn [firstn block]. unfold triple.
        intros s ->. unfold_stmt. revert Hmin. tests; finish_warnings.
      - apply triple_block. each_stmt; unfold triple; intros s;
          open_state s; unfold_stmt; tests; finish_warnings. }
    apply verify_triple in T.
    destruct (verifyContainerResources sysInfo update cfg) as [[c w] [e|]];
      exact T.
  - intros Hunset Hcpus Hmems.
    destruct cfg as [[]]. open_host. reduce.
    unfold set_memory, set_memorySwap, unset in Hunset.
    inversion Hunset; subst; clear Hunset.
    unfold verifyContainerResources.
    rewrite <- (firstn_skipn 2 (body _ _)), block_app. unfold seq at 1.
    match goal with
    | |- context [block (firstn 2 ?b) ?s0] =>
        assert (H2 : block (firstn 2 b) s0
                     = Next (mkState (mkConfig (set_memorySwap (-1) unset))
                               [warnMemoryLimit]))
    end.
    { unfold body; cbn [firstn block]. unfold_stmt. revert Hmin.
      tests; intros; first [reflexivity | lia]. }
    rewrite H2, quiet_block; [reflexivity|].
    each_stmt; unfold quiet, unset; intros ws; unfold_stmt;
      rewrite ?Hcpus, ?Hmems; reflexivity.
Qed.

Lemma memory_limit_unsupported_witness :
  let cfg := mkConfig (set_memory 4194304 (set_memorySwap 8388608 unset)) in
  (linuxMinMemory <= memory (resources cfg)
   /\ MemoryLimit (hostWith false) = false)
  /\ verifyContainerResources (hostWith false) false cfg
     = (mkConfig (set_memorySwap (-1) unset), [warnMemoryLimit], None).
Proof.
  split.
  - split; [vm_compute; discriminate | reflexivity].
  - apply (memory_limit_unsupported (hostWith false) false
             (mkConfig (set_memory 4194304 (set_memorySwap 8388608 unset)))).
    + vm_compute; discriminate.
    + reflexivity.
    + reflexivity.
    + reflexivity.
    + reflexivity.
Defined.

(** *** The OOM killer *)

(** C7, as stated, fails: the request asks to disable the OOM killer on a
    host that cannot, but the call returns at the memory minimum before
    it reaches the OOM-killer check, so there is no warning and the flag
    stays set. *)
Lemma oom_warning_counterexample :
  let cfg := mkConfig (set_memory 1 (set_disableOomKiller true unset)) in
  OomKillDisable (hostWith false) = false
  /\ disableOomKiller (resources cfg) = true
  /\ verifyContainerResources (hostWith false) false cfg
     = (cfg, [], Some MinimumMemory).
Proof. vm_compute. repeat split; reflexivity. Qed.

(** C7, amended: on a host that cannot disable the OOM killer, the call
    gives the OOM-killer warning exactly when the request asks to disable
    it and the call does not return one of the errors of the memory
    checks, which come first; the flag is reset exactly then.  With the
    flag off there is never such a warning. *)
Theorem oom_warning_iff_requested
    (sysInfo : SysInfo) (update : bool) (cfg : createConfig) :
  OomKillDisable sysInfo = false ->
  let '(cfg', ws, err) := verifyContainerResources sysInfo update cfg in
  (In warnOomKillDisable ws
   <-> disableOomKiller (resources cfg) = true /\ isMemoryError err = false)
  /\ disableOomKiller (resources cfg')
     = disableOomKiller (resources cfg) && isMemoryError err
  /\ (disableOomKiller (resources cfg) = false ->
      ~ In warnOomKillDisable ws).
Proof.
  intros Hcap.
  set (flag0 := disableOomKiller (resources cfg)).
  pose (before := fun s : state =>
          disableOomKiller (resources (config s)) = flag0
          /\ ~ In warnOomKillDisable (warnings s)).
  pose (after := fun s : state =>
          disableOomKiller (resources (config s)) = false
          /\ (In warnOomKillDisable (warnings s) <-> flag0 = true)).
  pose (E := fun (s : state) (err : error) =>
          (In warnOomKillDisable (warnings s)
           <-> flag0 = true /\ isMemoryError (Some err) = false)
          /\ disableOomKiller (resources (config s))
             = flag0 && isMemoryError (Some err)).
  assert (T : triple (fun s => s = mkState cfg [])
                (block (body sysInfo update)) after E).
  { apply (triple_split 11) with (Q := before);
      [|apply (triple_split 1) with (Q := after)].
    - apply triple_weaken with (P' := before) (Q' := before) (E' := E);
        [| intros s ->; subst before flag0; cbn; auto | auto | auto].
      apply triple_block. subst before after E. clearbody flag0.
      open_host. each_stmt; unfold triple; intros s;
        open_state s; unfold_stmt; tests; finish_warnings.
    - subst before after E. clearbody flag0. open_host. cbn in Hcap. subst.
      unfold body; cbn [firstn skipn block]. unfold triple; intros s;
        open_state s; unfold_stmt; tests; finish_warnings.
    - apply triple_block. subst before after E. clearbody flag0.
      open_host. each_stmt; unfold triple; intros s;
        open_state s; unfold_stmt; tests; finish_warnings. }
  apply verify_triple in T. subst before after E. cbn beta in T.
  destruct (verifyContainerResources sysInfo update cfg) as [[c w] [e|]];
    cbn [config resources warnings] in T; fold flag0.
  - destruct T as [T1 T2]. repeat split; try tauto.
    intros Hoff Hin. apply T1 in Hin. destruct Hin as [Hon _]. congruence.
  - destruct T as [T1 T2]. cbn [isMemoryError]. rewrite T1, andb_false_r.
    repeat split; try tauto. intros Hoff Hin. apply T2 in Hin. congruence.
Qed.

Lemma oom_warning_iff_requested_witness :
  let cfg := mkConfig (set_disableOomKiller true unset) in
  OomKillDisable hostWithoutOomKillDisable = false
  /\ verifyContainerResources hostWithoutOomKillDisable false cfg
     = (mkConfig unset, [warnOomKillDisable], None)
  /\ ((In warnOomKillDisable [warnOomKillDisable]
       <-> disableOomKiller (resources cfg) = true
           /\ isMemoryError None = false)
      /\ disableOomKiller (resources (mkConfig unset))
         = disableOomKiller (resources cfg) && isMemoryError None
      /\ (disableOomKiller (resources cfg) = false ->
          ~ In warnOomKillDisable [warnOomKillDisable])).
Proof.
  split; [reflexivity|]. split; [vm_compute; reflexivity|].
  exact (oom_warning_iff_requested hostWithoutOomKillDisable false
           (mkConfig (set_disableOomKiller true unset)) eq_refl).
Defined.

(** *** An unset CPU period *)

Lemma body_followsWithoutPeriod (sysInfo : SysInfo) (update : bool) :
  Forall followsWithoutPeriod (body sysInfo update).
Proof.
  open_host. each_stmt; unfold followsWithoutPeriod, zeroPeriod; intros s ws;
    open_state s; unfold_stmt; tests;
    first [ exact I | eexists; reflexivity | exfalso; lia
          | exfalso; congruence ].
Qed.

Lemma block_followsWithoutPeriod (stmts : list stmt) :
  Forall followsWithoutPeriod stmts -> followsWithoutPeriod (block stmts).
Proof.
  induction 1 as [|c rest Hc _ IH]; intros s ws.
  - cbn. exists ws. reflexivity.
  - rewrite block_cons. specialize (Hc s ws).
    destruct (c s) as [s1|s1 e1]; [|exact I].
    destruct Hc as [ws1 Hc]. specialize (IH s1 ws1).
    destruct (block rest s1) as [s2|s2 e2]; [|exact I].
    destruct IH as [ws2 IH]. exists ws2.
    rewrite block_cons, Hc. exact IH.
Qed.

(** C9: with [cpuPeriod] unset, the call leaves it at 0, never gives the
    CPU-period warning and never returns the CPU-period error, whatever
    the host supports; and when the other fields are legal (the request
    passes with some value of the period) the call returns no error. *)
Theorem unset_cpu_period_is_left_alone
    (sysInfo : SysInfo) (update : bool) (cfg : createConfig) :
  cpuPeriod (resources cfg) = 0 ->
  let '(cfg', ws, err) := verifyContainerResources sysInfo update cfg in
  cpuPeriod (resources cfg') = 0
  /\ ~ In warnCPUCfsPeriod ws
  /\ err <> Some CpuPeriodRange
  /\ (forall p,
        snd (verifyContainerResources sysInfo update
               (mkConfig (set_cpuPeriod p (resources cfg)))) = None ->
        err = None).
Proof.
  intros Hzero.
  pose (I := fun s : state =>
               cpuPeriod (resources (config s)) = 0
               /\ ~ In warnCPUCfsPeriod (warnings s)).
  assert (T : triple (fun s => s = mkState cfg [])
                (block (body sysInfo update)) I
                (fun s err => I s /\ err <> CpuPeriodRange)).
  { apply triple_weaken
      with (P' := I) (Q' := I) (E' := fun s err => I s /\ err <> CpuPeriodRange);
      [| intros s ->; subst I; cbn; auto | auto | auto].
    apply triple_block. subst I. open_host.
    each_stmt; unfold triple; intros s;
      open_state s; unfold_stmt; tests; finish_warnings. }
  assert (S : forall p,
            snd (verifyContainerResources sysInfo update
                   (mkConfig (set_cpuPeriod p (resources cfg)))) = None ->
            snd (verifyContainerResources sysInfo update cfg) = None).
  { intros p. unfold verifyContainerResources.
    pose proof (block_followsWithoutPeriod _
                  (body_followsWithoutPeriod sysInfo update)
                  (mkState (mkConfig (set_cpuPeriod p (resources cfg))) [])
                  []) as F.
    destruct (block (body sysInfo update)
                (mkState (mkConfig (set_cpuPeriod p (resources cfg))) []))
      as [sp|sp ep]; cbn [returned snd]; [|discriminate].
    destruct F as [ws' F]. intros _.
    replace (zeroPeriod
               (mkState (mkConfig (set_cpuPeriod p (resources cfg))) []) [])
      with (mkState cfg []) in F
      by (destruct cfg as [[]]; cbn in Hzero; subst; reflexivity).
    rewrite F. reflexivity. }
  apply verify_triple in T. subst I. cbn beta in T.
  destruct (verifyContainerResources sysInfo update cfg) as [[c w] [e|]];
    cbn [config resources warnings snd] in *.
  - destruct T as [[T1 T2] T3].
    split; [exact T1|]. split; [exact T2|]. split; [congruence|].
    intros p Hp. exact (S p Hp).
  - destruct T as [T1 T2].
    split; [exact T1|]. split; [exact T2|]. split; [discriminate|].
    reflexivity.
Qed.

Lemma unset_cpu_period_is_left_alone_witness :
  let cfg := mkConfig (set_cpuShares 512 unset) in
  cpuPeriod (resources cfg) = 0
  /\ verifyContainerResources (hostWith false) false cfg
     = (mkConfig unset, [warnCPUShares], None)
  /\ (cpuPeriod (resources (mkConfig unset)) = 0
      /\ ~ In warnCPUCfsPeriod [warnCPUShares]
      /\ None <> Some CpuPeriodRange
      /\ (forall p,
            snd (verifyContainerResources (hostWith false) false
                   (mkConfig (set_cpuPeriod p (resources cfg)))) = None ->
            @None error = None)).
Proof.
  split; [reflexivity|]. split; [vm_compute; reflexivity|].
  exact (unset_cpu_period_is_left_alone (hostWith false) false
           (mkConfig (set_cpuShares 512 unset)) eq_refl).
Defined.

(** *** A host with every capability *)

Import ResourcesVocabulary.

(** On a host with every capability the call only checks: whatever the
    outcome, the configuration is the one it received and there is no
    warning. *)
Theorem full_support_only_checks
    (sysInfo : SysInfo) (update : bool) (cfg : createConfig) :
  fullSupport sysInfo = true ->
  fst (verifyContainerResources sysInfo update cfg) = (cfg, []).
Proof.
  intros Hfull.
  assert (T : triple (fun s => s = mkState cfg [])
                (block (body sysInfo update))
                (fun s => s = mkState cfg [])
                (fun s _ => s = mkState cfg [])).
  { apply triple_block. open_host. unfold fullSupport in Hfull. reduce.
    repeat match goal with
      | H : _ && _ = true |- _ => apply andb_prop in H; destruct H
      end.
    subst. destruct cfg as [[]].
    each_stmt; unfold triple; intros s ->; unfold_stmt; tests; reflexivity. }
  apply verify_triple in T.
  destruct (verifyContainerResources sysInfo update cfg) as [[c w] [e|]];
    inversion T; reflexivity.
Qed.

Lemma full_support_only_checks_witness :
  let cfg := mkConfig (set_memory 4194304 (set_cpuPeriod 500 unset)) in
  fullSupport (hostWith true) = true
  /\ verifyContainerResources (hostWith true) false cfg
     = (cfg, [], Some CpuPeriodRange)
  /\ fst (verifyContainerResources (hostWith true) false cfg) = (cfg, []).
Proof.
  split; [reflexivity|]. split; [vm_compute; reflexivity|].
  exact (full_support_only_checks (hostWith true) false
           (mkConfig (set_memory 4194304 (set_cpuPeriod 500 unset))) eq_refl).
Defined.

(** *** What a downgrade may change *)

Ltac keep_or_floor :=
  intros;
  repeat match goal with H : _ /\ _ |- _ => destruct H end;
  repeat split;
  first [ assumption | right; reflexivity | left; reflexivity ].

(** However the call ends, every field of the configuration it leaves has
    the value it had in the request or the value a downgrade gives it (0,
    -1 for the swap limit and the swappiness, the empty string, the empty
    list, false): no limit is ever raised or invented. *)
Theorem fields_are_kept_or_discarded
    (sysInfo : SysInfo) (update : bool) (cfg : createConfig) :
  downgraded (resources cfg)
    (resources (fst (fst (verifyContainerResources sysInfo update cfg)))).
Proof.
  pose (I := fun s : state =>
               downgraded (resources cfg) (resources (config s))).
  assert (T : triple (fun s => s = mkState cfg [])
                (block (body sysInfo update)) I (fun s _ => I s)).
  { apply triple_weaken with (P' := I) (Q' := I) (E' := fun s _ => I s);
      [| intros s ->; subst I; unfold downgraded; cbn [config];
         repeat split; left; reflexivity | auto | auto].
    apply triple_block. subst I. unfold downgraded.
    destruct cfg as [[]]. open_host.
    each_stmt; unfold triple; intros s;
      open_state s; unfold_stmt; tests; keep_or_floor. }
  apply verify_triple in T.
  destruct (verifyContainerResources sysInfo update cfg) as [[c w] [e|]];
    exact T.
Qed.

(** *** The order of the warnings *)

Lemma Subseq_refl {A} (l : list A) : Subseq l l.
Proof. induction l; constructor; assumption. Qed.

Lemma Subseq_app {A} (a b m1 m2 : list A) :
  Subseq a m1 -> Subseq b m2 -> Subseq (a ++ b) (m1 ++ m2).
Proof.
  intros Ha Hb. induction Ha as [l | x l1 l2 _ IH | x l1 l2 _ IH];
    cbn [app].
  - induction l as [|y l IHl]; [exact Hb | constructor; exact IHl].
  - constructor. exact IH.
  - constructor. exact IH.
Qed.

Lemma Subseq_In {A} (l1 l2 : list A) (x : A) :
  Subseq l1 l2 -> In x l1 -> In x l2.
Proof.
  induction 1 as [l | y l1 l2 _ IH | y l1 l2 _ IH]; cbn [In].
  - contradiction.
  - intros [->|H]; [left; reflexivity | right; exact (IH H)].
  - intros H. right. exact (IH H).
Qed.

Lemma Subseq_NoDup {A} (l1 l2 : list A) :
  Subseq l1 l2 -> NoDup l2 -> NoDup l1.
Proof.
  induction 1 as [l | y l1 l2 Hs IH | y l1 l2 _ IH]; intros Hnd.
  - constructor.
  - inversion Hnd as [|? ? Hy Hrest]; subst. constructor.
    + intros Hin. apply Hy. exact (Subseq_In _ _ _ Hs Hin).
    + exact (IH Hrest).
  - inversion Hnd; subst. apply IH. assumption.
Qed.

Lemma block_warnsOnly (stmts : list stmt) (msgs : list (list string)) :
  Forall2 warnsOnly stmts msgs -> warnsOnly (block stmts) (List.concat msgs).
Proof.
  induction 1 as [|c ms rest mss Hc _ IH]; intros s.
  - exists []. cbn. split; [constructor | rewrite app_nil_r; reflexivity].
  - rewrite block_cons. cbn [List.concat]. destruct (Hc s) as (m1 & Hs1 & Hw1).
    destruct (c s) as [s1|s1 e1]; cbn [stateOf] in *.
    + destruct (IH s1) as (m2 & Hs2 & Hw2).
      exists (m1 ++ m2). split; [exact (Subseq_app _ _ _ _ Hs1 Hs2)|].
      rewrite Hw2, Hw1, app_assoc. reflexivity.
    + exists m1. split; [|exact Hw1].
      rewrite <- (app_nil_r m1). apply Subseq_app; [exact Hs1|constructor].
Qed.

Lemma allWarnings_NoDup : NoDup allWarnings.
Proof.
  assert (E : nodup string_dec allWarnings = allWarnings)
    by (vm_compute; reflexivity).
  rewrite <- E. apply NoDup_nodup.
Qed.

(** However the call ends, the warnings it returns are some of the
    seventeen messages, in the fixed order of the checks, and none of them
    twice. *)
Theorem warnings_follow_the_order_of_the_checks
    (sysInfo : SysInfo) (update : bool) (cfg : createConfig) :
  let ws := snd (fst (verifyContainerResources sysInfo update cfg)) in
  Subseq ws allWarnings /\ NoDup ws.
Proof.
  cbv zeta.
  assert (H : Subseq (snd (fst (verifyContainerResources sysInfo update cfg)))
                allWarnings).
  { pose (msgs := [ []; [warnMemoryLimit]; [warnSwapLimit]; []; [];
                    [warnMemorySwappiness]; [warnMemoryReservation]; []; [];
                    [warnKernelMemory]; []; [warnOomKillDisable];
                    [warnPidsLimit]; [warnCPUShares]; [warnCPUCfsPeriod]; [];
                    [warnCPUCfsQuota]; []; [warnCpuset]; []; [];
                    [warnBlkioWeight]; []; [warnBlkioWeightDevice];
                    [warnBlkioReadBpsDevice]; [warnBlkioWriteBpsDevice];
                    [warnBlkioReadIOpsDevice]; [warnBlkioWriteIOpsDevice] ]
                  : list (list string)).
    assert (F : Forall2 warnsOnly (body sysInfo update) msgs).
    { subst msgs. open_host. unfold body.
      repeat first [apply Forall2_nil | apply Forall2_cons];
        unfold warnsOnly; intros s; open_state s; unfold_stmt; tests;
        cbn [stateOf warnings];
        first [ exists []; split;
                [constructor | rewrite app_nil_r; reflexivity]
              | eexists; split; [apply Subseq_refl | reflexivity] ]. }
    apply block_warnsOnly in F.
    destruct (F (mkState cfg [])) as (more & Hsub & Hw).
    change (List.concat msgs) with allWarnings in Hsub.
    unfold verifyContainerResources.
    destruct (block (body sysInfo update) (mkState cfg [])) as [s|s e];
      cbn [returned fst snd stateOf warnings app] in *;
      rewrite Hw; exact Hsub. }
  split; [exact H|]. exact (Subseq_NoDup _ _ H allWarnings_NoDup).
Qed.

(** *** The update flag *)

Lemma block_sameButSwapWithoutMemory (l1 l2 : list stmt) :
  Forall2 sameButSwapWithoutMemory l1 l2 ->
  sameButSwapWithoutMemory (block l1) (block l2).
Proof.
  induction 1 as [|c1 c2 l1 l2 Hc _ IH]; intros s.
  - left. reflexivity.
  - rewrite !block_cons. destruct (Hc s) as [Heq|[s' Hret]].
    + rewrite <- Heq. destruct (c1 s) as [s1|s1 e1]; [apply IH|].
      left. reflexivity.
    + rewrite Hret. right. exists s'. reflexivity.
Qed.

(** The [update] flag matters for one check only: unless the call without
    the flag returns the error about a swap limit without a memory limit,
    the call with the flag returns the same configuration, warnings and
    error; and the call with the flag never returns that error. *)
Theorem update_only_lifts_swap_without_memory
    (sysInfo : SysInfo) (cfg : createConfig) :
  (snd (verifyContainerResources sysInfo false cfg) <> Some SwapWithoutMemory ->
   verifyContainerResources sysInfo true cfg
   = verifyContainerResources sysInfo false cfg)
  /\ snd (verifyContainerResources sysInfo true cfg) <> Some SwapWithoutMemory.
Proof.
  split.
  - assert (F : Forall2 sameButSwapWithoutMemory
                  (body sysInfo false) (body sysInfo true)).
    { unfold body.
      repeat first [apply Forall2_nil | apply Forall2_cons];
        intros s; first [ left; reflexivity | idtac ].
      open_state s. unfold_stmt. tests;
        first [ left; reflexivity | right; eexists; reflexivity ]. }
    apply block_sameButSwapWithoutMemory in F.
    unfold verifyContainerResources. intros Hne.
    destruct (F (mkState cfg [])) as [Heq|[s' Hret]].
    + rewrite Heq. reflexivity.
    + rewrite Hret in Hne. cbn in Hne. congruence.
  - assert (T : triple (fun s => s = mkState cfg [])
                  (block (body sysInfo true)) (fun _ => True)
                  (fun _ err => err <> SwapWithoutMemory)).
    { apply triple_weaken with (P' := fun _ => True) (Q' := fun _ => True)
        (E' := fun _ err => err <> SwapWithoutMemory); auto.
      apply triple_block. open_host. each_stmt; stmt_triple. }
    apply verify_triple in T.
    destruct (verifyContainerResources sysInfo true cfg) as [[c w] [e|]];
      cbn [snd]; congruence.
Qed.

(** *** Range errors and capabilities *)

Lemma triple_steps (I : nat -> state -> Prop) (E : state -> error -> Prop)
    (stmts : list stmt) :
  forall n,
    (forall k c, nth_error stmts k = Some c ->
                 triple (I (n + k)%nat) c (I (S (n + k))) E) ->
    triple (I n) (block stmts) (I (n + List.length stmts)%nat) E.
Proof.
  induction stmts as [|c rest IH]; intros n H s Hs.
  - cbn. rewrite Nat.add_0_r. exact Hs.
  - rewrite block_cons. pose proof (H 0%nat c eq_refl s) as Hc.
    rewrite Nat.add_0_r in Hc. specialize (Hc Hs).
    destruct (c s) as [s1|s1 e1]; [|exact Hc].
    cbn [List.length]. rewrite Nat.add_succ_r.
    apply (IH (S n)); [|exact Hc].
    intros k c' Hk. cbn [Nat.add]. rewrite <- Nat.add_succ_r.
    apply H. exact Hk.
Qed.

(** One goal per statement of a list, from its index. *)
Ltac by_index tac :=
  match goal with
  | Hk : nth_error [] ?k = Some _ |- _ => destruct k; discriminate Hk
  | Hk : nth_error (_ :: _) ?k = Some _ |- _ =>
      destruct k as [|k]; cbn [nth_error] in Hk;
      [ injection Hk as <-; tac | by_index tac ]
  end.

Ltac solve_support :=
  intros; cbn [supports] in *; reduce;
  repeat match goal with H : _ /\ _ |- _ => destruct H end;
  repeat match goal with
    | |- _ /\ _ => split
    | |- _ -> _ => intro
    end;
  first [ reflexivity
        | exact I
        | exfalso; lia
        | congruence
        | match goal with H : _ -> _ |- _ => solve [apply H; lia] end
        | left; first [ reflexivity
                      | match goal with H : _ -> _ |- _ =>
                          solve [apply H; first [lia | congruence]] end
                      | apply andb_true_intro; split;
                        match goal with H : _ -> _ |- _ =>
                          solve [apply H; first [lia | congruence]] end ]
        | right; split; [reflexivity | lia]
        | match goal with
          | |- _ \/ (_ /\ ?x < 0) =>
              destruct (Z.lt_ge_cases x 0);
              [ right; split; [reflexivity | assumption]
              | left; match goal with H : _ -> _ |- _ =>
                        solve [apply H; lia] end ]
          end ].

(** A range or ordering error is only returned for limits that the host
    supports: when the call returns an error about a limit, the
    capabilities of that limit are present (a period below zero is the
    one exception, it is never discarded).  The minimum of the memory
    limit is the only range check made before the capability check. *)
Theorem range_errors_concern_supported_limits
    (sysInfo : SysInfo) (update : bool) (cfg cfg' : createConfig)
    (ws : list string) (err : error) :
  verifyContainerResources sysInfo update cfg = (cfg', ws, Some err) ->
  supports sysInfo err = true
  \/ (err = CpuPeriodRange /\ cpuPeriod (resources cfg') < 0).
Proof.
  intros H.
  assert (T : triple (checkedSoFar sysInfo 0)
                (block (body sysInfo update))
                (checkedSoFar sysInfo
                   (0 + List.length (body sysInfo update)))
                (fun s e =>
                   supports sysInfo e = true
                   \/ (e = CpuPeriodRange
                       /\ cpuPeriod (resources (config s)) < 0))).
  { apply triple_steps. open_host. unfold checkedSoFar. intros k c Hk.
    unfold body in Hk.
    by_index ltac:(cbn [Nat.add]; unfold triple; intros s; open_state s;
                   unfold_stmt; cbv zeta; reduce; tests; solve_support). }
  assert (T0 : triple (fun s => s = mkState cfg [])
                 (block (body sysInfo update)) (fun _ => True)
                 (fun s e =>
                    supports sysInfo e = true
                    \/ (e = CpuPeriodRange
                        /\ cpuPeriod (resources (config s)) < 0))).
  { eapply triple_weaken; [exact T | | auto | auto].
    intros s ->. unfold checkedSoFar. cbv zeta. repeat split; intros; lia. }
  apply verify_triple in T0. rewrite H in T0. exact T0.
Qed.

Lemma range_errors_concern_supported_limits_witness :
  let cfg := mkConfig (set_kernelMemory 1000 unset) in
  verifyContainerResources (hostWith true) false cfg
  = (cfg, [], Some MinimumKernelMemory)
  /\ (supports (hostWith true) MinimumKernelMemory = true
      \/ (MinimumKernelMemory = CpuPeriodRange
          /\ cpuPeriod (resources cfg) < 0)).
Proof.
  split; [vm_compute; reflexivity|].
  apply (range_errors_concern_supported_limits (hostWith true) false
           (mkConfig (set_kernelMemory 1000 unset))
           (mkConfig (set_kernelMemory 1000 unset)) []).
  vm_compute. reflexivity.
Defined.

(** *** What a successful call guarantees *)

Lemma success_leaves_quiet
    (sysInfo : SysInfo) (update : bool) (cfg cfg' : createConfig)
    (ws : list string) :
  verifyContainerResources sysInfo update cfg = (cfg', ws, None) ->
  forall k c, nth_error (body sysInfo update) k = Some c ->
              c (mkState cfg' []) = Next (mkState cfg' []).
Proof.
  unfold verifyContainerResources. intros H.
  destruct (block (body sysInfo update) (mkState cfg [])) as [s'|s' e] eqn:Hb;
    cbn in H; [|discriminate H].
  destruct s' as [c' w']. cbn in H. inversion H; subst; clear H.
  pose proof (run_leaves_quiet (body sysInfo update) [] _ _
                (body_keepsQuiet sysInfo update)
                (body_settles sysInfo update)
                (Forall_nil _) Hb) as Hq.
  cbn [app config] in Hq. rewrite Forall_forall in Hq.
  intros k c Hk. apply nth_error_In in Hk. exact (Hq c Hk []).
Qed.

(** Bring the fact that statement [k] is quiet into the goal. *)
Ltac quiet_stmt Q k :=
  let H := fresh "Hquiet" in
  pose proof (Q k _ eq_refl) as H; revert H.

Ltac finish_lists :=
  unfold_stmt;
  match goal with
  | |- context [List.length ?l] => is_var l; destruct l
  end;
  tests; intros; cbn [app] in *;
  first [ discriminate | congruence | lia
        | solve [intuition (first [lia | congruence])] ].

Ltac finish_quiet :=
  unfold_stmt; tests; intros; cbn [app] in *;
  first [ discriminate | congruence | lia
        | solve [intuition (first [lia | congruence])] ].

(** After a successful call the memory limits are consistent: the memory
    limit is unset or at least 4MiB and supported; the swap limit is -1,
    or supported and not between 0 and the memory limit; a swap limit
    without a memory limit is only left by an update; the swappiness is
    -1, or supported and between 0 and 100; the reservation and the kernel
    memory are not positive, or supported and at least 4MiB, the
    reservation not above the memory limit. *)
Theorem success_memory_limits
    (sysInfo : SysInfo) (update : bool) (cfg cfg' : createConfig)
    (ws : list string) :
  verifyContainerResources sysInfo update cfg = (cfg', ws, None) ->
  let r := resources cfg' in
  (memory r = 0
   \/ (linuxMinMemory <= memory r /\ MemoryLimit sysInfo = true))
  /\ (0 < memory r ->
      memorySwap r = -1
      \/ (SwapLimit sysInfo = true
          /\ (memorySwap r <= 0 \/ memory r <= memorySwap r)))
  /\ (memory r = 0 -> 0 < memorySwap r -> update = true)
  /\ (memorySwappiness r = -1
      \/ (MemorySwappiness sysInfo = true
          /\ 0 <= memorySwappiness r <= 100))
  /\ (memoryReservation r <= 0
      \/ (MemoryReservation sysInfo = true
          /\ linuxMinMemory <= memoryReservation r
          /\ (0 < memory r -> memoryReservation r <= memory r)))
  /\ (kernelMemory r <= 0
      \/ (KernelMemory sysInfo = true
          /\ linuxMinMemory <= kernelMemory r)).
Proof.
  intros H. pose proof (success_leaves_quiet _ _ _ _ _ H) as Q. clear H.
  destruct cfg' as [[]]. open_host. cbv zeta. reduce.
  unfold linuxMinMemory. unfold body in Q.
  split; [quiet_stmt Q 0%nat; quiet_stmt Q 1%nat; clear Q; finish_quiet|].
  split; [quiet_stmt Q 2%nat; quiet_stmt Q 3%nat; clear Q; finish_quiet|].
  split; [quiet_stmt Q 4%nat; clear Q; finish_quiet|].
  split; [quiet_stmt Q 5%nat; clear Q; finish_quiet|].
  split; [quiet_stmt Q 6%nat; quiet_stmt Q 7%nat; quiet_stmt Q 8%nat;
          clear Q; finish_quiet|].
  quiet_stmt Q 9%nat; quiet_stmt Q 10%nat; clear Q; finish_quiet.
Qed.

Lemma success_memory_limits_witness :
  let cfg := mkConfig (set_memory 8388608 (set_memorySwap 4194304 unset)) in
  let r := set_memory 8388608 (set_memorySwap (-1) unset) in
  verifyContainerResources
    hostWithoutSwapLimit false cfg
  = (mkConfig r, [warnSwapLimit], None)
  /\ (memory r = 0
      \/ (linuxMinMemory <= memory r
          /\ MemoryLimit hostWithoutSwapLimit = true)).
Proof.
  split; [vm_compute; reflexivity|].
  exact (proj1 (success_memory_limits hostWithoutSwapLimit false
                  (mkConfig (set_memory 8388608
                               (set_memorySwap 4194304 unset)))
                  (mkConfig (set_memory 8388608 (set_memorySwap (-1) unset)))
                  [warnSwapLimit] eq_refl)).
Defined.

(** After a successful call the OOM killer is only disabled, and the PIDs
    limit and the CPU shares are only set, where the host supports it; the
    CPU period is 0, or supported and between 1000 and 1000000; the CPU
    quota is not positive, or supported and at least 1000. *)
Theorem success_cpu_limits
    (sysInfo : SysInfo) (update : bool) (cfg cfg' : createConfig)
    (ws : list string) :
  verifyContainerResources sysInfo update cfg = (cfg', ws, None) ->
  let r := resources cfg' in
  (disableOomKiller r = true -> OomKillDisable sysInfo = true)
  /\ (pidsLimit r <> 0 -> PidsLimit sysInfo = true)
  /\ (0 < cpuShares r -> CPUShares sysInfo = true)
  /\ (cpuPeriod r = 0
      \/ (CPUCfsPeriod sysInfo = true /\ 1000 <= cpuPeriod r <= 1000000))
  /\ (cpuQuota r <= 0
      \/ (CPUCfsQuota sysInfo = true /\ 1000 <= cpuQuota r)).
Proof.
  intros H. pose proof (success_leaves_quiet _ _ _ _ _ H) as Q. clear H.
  destruct cfg' as [[]]. open_host. cbv zeta. reduce. unfold body in Q.
  split; [quiet_stmt Q 11%nat; clear Q; finish_quiet|].
  split; [quiet_stmt Q 12%nat; clear Q; finish_quiet|].
  split; [quiet_stmt Q 13%nat; clear Q; finish_quiet|].
  split; [quiet_stmt Q 14%nat; quiet_stmt Q 15%nat; clear Q; finish_quiet|].
  quiet_stmt Q 16%nat; quiet_stmt Q 17%nat; clear Q; finish_quiet.
Qed.

Lemma success_cpu_limits_witness :
  let cfg := mkConfig (set_cpuPeriod 500 (set_cpuQuota 2000 unset)) in
  verifyContainerResources (hostWith false) false cfg
  = (mkConfig unset, [warnCPUCfsPeriod; warnCPUCfsQuota], None)
  /\ (cpuPeriod unset = 0
      \/ (CPUCfsPeriod (hostWith false) = true
          /\ 1000 <= cpuPeriod unset <= 1000000)).
Proof.
  split; [vm_compute; reflexivity|].
  exact (proj1 (proj2 (proj2 (proj2
           (success_cpu_limits (hostWith false) false
              (mkConfig (set_cpuPeriod 500 (set_cpuQuota 2000 unset)))
              (mkConfig unset) [warnCPUCfsPeriod; warnCPUCfsQuota]
              eq_refl))))).
Defined.

(** After a successful call the cpusets are empty or supported, and the
    host has reported both of them available; the block I/O weight is not
    positive, or supported and between 10 and 1000; each list of
    per-device limits is empty or supported. *)
Theorem success_cpuset_and_blkio
    (sysInfo : SysInfo) (update : bool) (cfg cfg' : createConfig)
    (ws : list string) :
  verifyContainerResources sysInfo update cfg = (cfg', ws, None) ->
  let r := resources cfg' in
  ((cpusetCpus r <> "" \/ cpusetMems r <> "") -> Cpuset sysInfo = true)
  /\ IsCpusetCpusAvailable sysInfo (cpusetCpus r) = (true, None)
  /\ IsCpusetMemsAvailable sysInfo (cpusetMems r) = (true, None)
  /\ (blkioWeight r <= 0
      \/ (BlkioWeight sysInfo = true /\ 10 <= blkioWeight r <= 1000))
  /\ (blkioWeightDevice r <> [] -> BlkioWeightDevice sysInfo = true)
  /\ (deviceReadBps r <> [] -> BlkioReadBpsDevice sysInfo = true)
  /\ (deviceWriteBps r <> [] -> BlkioWriteBpsDevice sysInfo = true)
  /\ (deviceReadIOps r <> [] -> BlkioReadIOpsDevice sysInfo = true)
  /\ (deviceWriteIOps r <> [] -> BlkioWriteIOpsDevice sysInfo = true).
Proof.
  intros H. pose proof (success_leaves_quiet _ _ _ _ _ H) as Q. clear H.
  destruct cfg' as [[]]. open_host. cbv zeta. reduce. unfold body in Q.
  split; [quiet_stmt Q 18%nat; clear Q; finish_quiet|].
  split; [quiet_stmt Q 19%nat; clear Q; finish_quiet|].
  split; [quiet_stmt Q 20%nat; clear Q; finish_quiet|].
  split; [quiet_stmt Q 21%nat; quiet_stmt Q 22%nat; clear Q; finish_quiet|].
  split; [quiet_stmt Q 23%nat; clear Q; finish_lists|].
  split; [quiet_stmt Q 24%nat; clear Q; finish_lists|].
  split; [quiet_stmt Q 25%nat; clear Q; finish_lists|].
  split; [quiet_stmt Q 26%nat; clear Q; finish_lists|].
  quiet_stmt Q 27%nat; clear Q; finish_lists.
Qed.

Lemma success_cpuset_and_blkio_witness :
  let cfg := mkConfig (set_cpusetCpus "0-1" (set_blkioWeight 5 unset)) in
  verifyContainerResources (hostWith false) false cfg
  = (mkConfig unset, [warnCpuset; warnBlkioWeight], None)
  /\ ((cpusetCpus unset <> "" \/ cpusetMems unset <> "") ->
      Cpuset (hostWith false) = true).
Proof.
  split; [vm_compute; reflexivity|].
  exact (proj1 (success_cpuset_and_blkio (hostWith false) false
                  (mkConfig (set_cpusetCpus "0-1" (set_blkioWeight 5 unset)))
                  (mkConfig unset) [warnCpuset; warnBlkioWeight] eq_refl)).
Defined.

(** *** Warnings and changes *)

(** However the call ends, each warning it returns reports a capability
    that the host does not have. *)
Theorem warnings_report_absent_capabilities
    (sysInfo : SysInfo) (update : bool) (cfg : createConfig) :
  Forall (fun msg => reportsAbsent sysInfo msg = true)
    (snd (fst (verifyContainerResources sysInfo update cfg))).
Proof.
  pose (I := fun s : state =>
               Forall (fun msg => reportsAbsent sysInfo msg = true)
                 (warnings s)).
  assert (T : triple (fun s => s = mkState cfg [])
                (block (body sysInfo update)) I (fun s _ => I s)).
  { apply triple_weaken with (P' := I) (Q' := I) (E' := fun s _ => I s);
      [| intros s ->; subst I; constructor | auto | auto].
    apply triple_block. subst I. open_host.
    each_stmt; unfold triple; intros s; open_state s; unfold_stmt; tests;
      intros Hws;
      first [ exact Hws
            | apply Forall_app; split;
              [ exact Hws
              | constructor; [vm_compute; reflexivity | constructor] ] ]. }
  apply verify_triple in T.
  destruct (verifyContainerResources sysInfo update cfg) as [[c w] [e|]];
    exact T.
Qed.

Ltac finish_changed :=
  intros;
  repeat match goal with H : _ /\ _ |- _ => destruct H end;
  repeat split;
  first [ assumption | right; reflexivity | left; reflexivity
        | let Hw := fresh "Hw" in
          intros Hw; apply app_eq_nil in Hw; destruct Hw; discriminate
        | let Heq := fresh "Heq" in
          intros _ Heq; injection Heq; clear Heq; intros;
          repeat match goal with
            | H : _ = [] -> _ |- _ => clear H
            | H : _ <> [] -> _ |- _ => clear H
            end;
          match goal with
          | He : ?u = ?x0, Hd : ?x = ?x0 \/ ?x = ?u |- _ =>
              tryif is_var u then fail else
                (let E := fresh "E" in
                 assert (E : x = u)
                   by (destruct Hd as [E|E];
                       [exact (eq_trans E (eq_sym He)) | exact E]);
                 repeat match goal with H : _ \/ _ |- _ => clear H end;
                 first [ discriminate E
                       | subst x; cbn [List.length Z.of_nat] in *;
                         first [lia | congruence] ])
          end ].

(** However the call ends, it returns no warning exactly when it returns
    the configuration as it received it: every change comes with a
    warning, and every warning with a change. *)
Theorem no_warning_iff_unchanged
    (sysInfo : SysInfo) (update : bool) (cfg : createConfig) :
  snd (fst (verifyContainerResources sysInfo update cfg)) = []
  <-> fst (fst (verifyContainerResources sysInfo update cfg)) = cfg.
Proof.
  pose (I := fun s : state =>
               downgraded (resources cfg) (resources (config s))
               /\ (warnings s = [] -> config s = cfg)
               /\ (warnings s <> [] -> config s <> cfg)).
  assert (T : triple (fun s => s = mkState cfg [])
                (block (body sysInfo update)) I (fun s _ => I s)).
  { apply triple_weaken with (P' := I) (Q' := I) (E' := fun s _ => I s);
      [| intros s ->; subst I; unfold downgraded; cbn [config warnings];
         repeat split; first [left; reflexivity | congruence]
       | auto | auto].
    apply triple_block. subst I. unfold downgraded.
    destruct cfg as [[]]. open_host.
    each_stmt; unfold triple; intros s;
      open_state s; unfold_stmt; tests; finish_changed. }
  assert (R : forall (c : createConfig) (w : list string),
            (w = [] -> c = cfg) -> (w <> [] -> c <> cfg) ->
            (w = [] <-> c = cfg)).
  { intros c w T1 T2. split; [exact T1|]. intros ->.
    destruct w as [|m w]; [reflexivity|].
    exfalso. apply T2; [discriminate|reflexivity]. }
  apply verify_triple in T.
  destruct (verifyContainerResources sysInfo update cfg) as [[c w] [e|]];
    cbn [fst snd config warnings] in *; destruct T as (_ & T1 & T2);
    exact (R _ _ T1 T2).
Qed.

(** *** The minimum of the memory limit, both ways *)

(** The call returns the minimum-memory error exactly when the memory
    limit is not 0 and below 4MiB, a limit below zero included. *)
Theorem minimum_memory_error_iff
    (sysInfo : SysInfo) (update : bool) (cfg : createConfig) :
  snd (verifyContainerResources sysInfo update cfg) = Some MinimumMemory
  <-> memory (resources cfg) <> 0 /\ memory (resources cfg) < linuxMinMemory.
Proof.
  set (low := memory (resources cfg) <> 0
              /\ memory (resources cfg) < linuxMinMemory).
  assert (T : triple (fun s => s = mkState cfg [])
                (block (body sysInfo update))
                (fun _ => ~ low)
                (fun _ err => err = MinimumMemory <-> low)).
  { subst low. destruct cfg as [[]]. open_host. unfold_stmt.
    apply (triple_split 1) with (Q := fun _ =>
      ~ (memory0 <> 0 /\ memory0 < 4194304)).
    - unfold body; cbn [firstn block]. unfold triple.
      intros s ->. unfold_stmt. tests; finish.
    - apply triple_block. each_stmt; stmt_triple. }
  apply verify_triple in T.
  destruct (verifyContainerResources sysInfo update cfg) as [[c w] [e|]];
    cbn [snd].
  - rewrite <- T. split; congruence.
  - split; [discriminate | contradiction].
Qed.

End ResourcesSpec.
